(** * The balloon subsystem of the portfolio page

    A shallow embedding of the balloon code of [src/App.tsx] and of its two
    near-duplicate page files ([part_000], [part_001]): the balloon factory
    [randomBalloon], the hook [useAudioPop], the component [BalloonsLayer]
    (its state, its spawn effect and its two event handlers) and the part of
    [Portfolio] that mounts the layer and owns the two toggles.

    Conventions of the model.
    - JavaScript numbers that hold measures (pixels, seconds, gains) are exact
      rationals [Q]; rounding of doubles is not modelled.  Ids and lengths are
      natural numbers (the counter is far below 2^53 in any session).
    - The browser is a record of oracles: what the n-th [Math.random()] call
      returns, whether the n-th Web Audio call throws, and so on.  Theorems
      quantify over every browser.
    - Component code runs in a state-and-exception monad over the cells it can
      touch (the layer's [useState]/[useRef] cells and the browser counters).
    - [log] and [created] are observation fields: the first records the
      externally visible calls a handler makes, the second every balloon
      built so far.  No modelled code reads them. *)

From Stdlib Require Import List Arith Bool ZArith QArith Qround Qminmax Lia Lqa.
From Stdlib Require Import Sorted.
From Stdlib Require String Ascii.
Import ListNotations.

Local Open Scope nat_scope.

(** ** The three page files *)

Inductive source_file := App_tsx | part_000 | part_001.

(** ** Data model *)

(** [type Balloon = { id; x; size; hue; floatSec; sway }] *)
Record Balloon := mkBalloon {
  id : nat;
  x : Q;          (* vw *)
  size : Q;       (* px *)
  hue : Z;        (* color hue *)
  floatSec : Q;   (* duration to float to top *)
  sway : Q        (* horizontal sway px *)
}.

(** Web Audio: the nodes and parameters [useAudioPop] names, and the calls it
    makes on them, in the vocabulary of the API. *)
Inductive Node := gain | osc | noise | noiseGain | destination.
Inductive Param := gain_gain | osc_frequency | noiseGain_gain.

Inductive AudioOp :=
| new_AudioContext
| resume
| createGain (n : Node)
| createOscillator
| set_type_triangle
| setValueAtTime (p : Param) (v t : Q)
| exponentialRampToValueAtTime (p : Param) (v t : Q)
| createBuffer (channels len : nat) (rate : Q)
| getChannelData (channel : nat)
| fill_data (len : nat)
| createBufferSource
| set_buffer
| connect (a b : Node)
| start (n : Node) (t : Q)
| stop (n : Node) (t : Q).

(** What a handler does that is visible from outside the component. *)
Inductive Effect :=
| StopPropagation              (* e.stopPropagation() *)
| PopCalled                    (* the function returned by useAudioPop is called *)
| Audio (op : AudioOp)         (* a Web Audio call that returned *)
| Caught                       (* the catch block of an exception was entered *)
| RemoveRequest (i : nat).     (* setBalloons(b => b.filter(x => x.id !== i)) *)

(** The cells of one mounted [BalloonsLayer]. *)
Record Layer := mkLayer {
  balloons : list Balloon;   (* const [balloons, setBalloons] = useState<Balloon[]>([]) *)
  idRef : nat;               (* const idRef = useRef(1) *)
  spawn : option nat;        (* the running setInterval, with its period in ms *)
  ctxRef : bool;             (* useAudioPop: ctxRef.current is not null *)
  volRef : Q;                (* useAudioPop: volRef.current *)
  awaiting : list nat        (* bl.id of each click handler parked at await pop() *)
}.

(** The browser as seen by the balloon code. *)
Record Browser := mkBrowser {
  random_value : nat -> Q;   (* result of the n-th call of Math.random() *)
  throws : nat -> bool;      (* the n-th Web Audio call throws *)
  suspended : nat -> bool;   (* ctx.state === "suspended", read after n audio calls *)
  currentTime : nat -> Q;    (* ctx.currentTime, read after n audio calls *)
  sampleRate : Q             (* ctx.sampleRate *)
}.

(** The page-wide cells: browser counters and the two observation fields. *)
Record Globals := mkGlobals {
  random_calls : nat;        (* calls of Math.random() so far *)
  audio_calls : nat;         (* Web Audio calls so far *)
  log : list Effect;         (* observation: visible calls, oldest first *)
  created : list Balloon     (* observation: every balloon built for the layer, oldest first *)
}.

(** Everything the code of a mounted layer can read or write while it runs. *)
Record World := mkWorld {
  lay : Layer;
  glob : Globals
}.

Definition with_lay (f : Layer -> Layer) (w : World) : World :=
  mkWorld (f (lay w)) (glob w).
Definition with_glob (f : Globals -> Globals) (w : World) : World :=
  mkWorld (lay w) (f (glob w)).

Definition count_random (n : nat) (g : Globals) : Globals :=
  mkGlobals (n + random_calls g) (audio_calls g) (log g) (created g).
Definition count_audio (g : Globals) : Globals :=
  mkGlobals (random_calls g) (S (audio_calls g)) (log g) (created g).
Definition add_log (e : Effect) (g : Globals) : Globals :=
  mkGlobals (random_calls g) (audio_calls g) (log g ++ [e]) (created g).
Definition add_created (b : Balloon) (g : Globals) : Globals :=
  mkGlobals (random_calls g) (audio_calls g) (log g) (created g ++ [b]).

Definition set_balloons (b : list Balloon) (l : Layer) : Layer :=
  mkLayer b (idRef l) (spawn l) (ctxRef l) (volRef l) (awaiting l).
Definition set_idRef (n : nat) (l : Layer) : Layer :=
  mkLayer (balloons l) n (spawn l) (ctxRef l) (volRef l) (awaiting l).
Definition set_spawn (t : option nat) (l : Layer) : Layer :=
  mkLayer (balloons l) (idRef l) t (ctxRef l) (volRef l) (awaiting l).
Definition set_ctxRef (c : bool) (l : Layer) : Layer :=
  mkLayer (balloons l) (idRef l) (spawn l) c (volRef l) (awaiting l).
Definition set_volRef (v : Q) (l : Layer) : Layer :=
  mkLayer (balloons l) (idRef l) (spawn l) (ctxRef l) v (awaiting l).
Definition set_awaiting (p : list nat) (l : Layer) : Layer :=
  mkLayer (balloons l) (idRef l) (spawn l) (ctxRef l) (volRef l) p.

(** ** The monad of component code: state, and JavaScript exceptions *)

Inductive Res (A : Type) := Val (a : A) | Exn.
Arguments Val {A} a.
Arguments Exn {A}.

Definition M (A : Type) : Type := World -> Res A * World.

Definition ret {A} (a : A) : M A := fun w => (Val a, w).

Definition bind {A B} (m : M A) (k : A -> M B) : M B :=
  fun w => match m w with
           | (Val a, w') => k a w'
           | (Exn, w') => (Exn, w')
           end.

Definition throw {A} : M A := fun w => (Exn, w).

(** [try { body } catch { handler }]: writes made before the throw stay. *)
Definition try_catch {A} (body : M A) (handler : M A) : M A :=
  fun w => match body w with
           | (Val a, w') => (Val a, w')
           | (Exn, w') => handler w'
           end.

Definition gets {A} (f : World -> A) : M A := fun w => (Val (f w), w).
Definition modify (f : World -> World) : M unit := fun w => (Val tt, f w).

Notation "x <- m ;; k" := (bind m (fun x => k))
  (at level 61, m at next level, right associativity).
Notation "m ;;; k" := (bind m (fun _ => k))
  (at level 61, right associativity).

Definition emit (e : Effect) : M unit := modify (with_glob (add_log e)).

Section Code.

Variable br : Browser.
Variable file : source_file.

(** [Math.random()] *)
Definition Math_random : M Q :=
  fun w => (Val (random_value br (random_calls (glob w))),
            with_glob (count_random 1) w).

(** ** Balloon factory *)

(** [function randomBalloon(idSeed: number): Balloon].  The size draw is
    [38 + Math.random() * 34] in App.tsx and part_000 and
    [36 + Math.random() * 36] in part_001; the rest is common. *)
Definition randomBalloon (idSeed : nat) : M Balloon :=
  r_size <- Math_random ;;
  let size := match file with
              | part_001 => (36 + r_size * 36)%Q
              | _ => (38 + r_size * 34)%Q
              end in
  r_x <- Math_random ;;
  r_hue <- Math_random ;;
  r_float <- Math_random ;;
  r_sway <- Math_random ;;
  ret {| id := idSeed;
         x := (r_x * 96 + 2)%Q;
         size := size;
         hue := Qfloor (r_hue * 360);
         floatSec := (10 + r_float * 10)%Q;
         sway := (20 + r_sway * 60)%Q |}.

(** ** Tone synthesizer: [useAudioPop] *)

(** One Web Audio call: it throws when the browser says so, and is recorded
    when it returns. *)
Definition call (op : AudioOp) : M unit :=
  fun w =>
    let w' := with_glob count_audio w in
    if throws br (audio_calls (glob w)) then (Exn, w')
    else emit (Audio op) w'.

(** [if (!ctxRef.current) ctxRef.current = new (window.AudioContext || ...)()] *)
Definition acquire_ctx : M unit :=
  c <- gets (fun w => ctxRef (lay w)) ;;
  if c then ret tt
  else call new_AudioContext ;;; modify (with_lay (set_ctxRef true)).

(** The value the output gain starts from: [Math.max(0.0001, volRef.current)]
    in App.tsx, [volRef.current] in the other two files. *)
Definition start_gain (vol : Q) : Q :=
  match file with
  | App_tsx => Qmax 0.0001 vol
  | _ => vol
  end.

(** From [const now = ctx.currentTime] to [noise.stop(now + 0.06)]. *)
Definition build_graph : M unit :=
  now <- gets (fun w => currentTime br (audio_calls (glob w))) ;;
  call (createGain gain) ;;;
  vol <- gets (fun w => volRef (lay w)) ;;
  call (setValueAtTime gain_gain (start_gain vol) now) ;;;
  call (exponentialRampToValueAtTime gain_gain 0.0001 (now + 0.12)) ;;;
  call createOscillator ;;;
  call set_type_triangle ;;;
  call (setValueAtTime osc_frequency 240 now) ;;;
  call (exponentialRampToValueAtTime osc_frequency 60 (now + 0.12)) ;;;
  call (createBuffer 1 2048 (sampleRate br)) ;;;
  call (getChannelData 0) ;;;
  (* for (i < bufferSize) data[i] = (Math.random() * 2 - 1) * (1 - i / bufferSize):
     2048 draws; the samples themselves are not kept by the model *)
  modify (with_glob (count_random 2048)) ;;;
  emit (Audio (fill_data 2048)) ;;;
  call createBufferSource ;;;
  call set_buffer ;;;
  call (createGain noiseGain) ;;;
  vol' <- gets (fun w => volRef (lay w)) ;;
  call (setValueAtTime noiseGain_gain (vol' * 0.4) now) ;;;
  call (exponentialRampToValueAtTime noiseGain_gain 0.0001 (now + 0.05)) ;;;
  call (connect osc gain) ;;;
  call (connect noise noiseGain) ;;;
  call (connect noiseGain gain) ;;;
  call (connect gain destination) ;;;
  call (start osc now) ;;;
  call (stop osc (now + 0.13)) ;;;
  call (start noise now) ;;;
  call (stop noise (now + 0.06)).

(** Where a call of the function returned by [useAudioPop] stands when
    control comes back to the caller: finished, or (App.tsx only) parked at
    [await ctx.resume()]. *)
Inductive Status := Settled | Suspended.

(** The body of the function returned by [useAudioPop].  In App.tsx it is
    [async] and waits for [ctx.resume()] when the context is suspended; in
    the other two files it is synchronous and has no such step.  All of it
    sits in [try { ... } catch { /* noop */ }]. *)
Definition pop_body : M Status :=
  try_catch
    (acquire_ctx ;;;
     match file with
     | App_tsx =>
         s <- gets (fun w => suspended br (audio_calls (glob w))) ;;
         if s then call resume ;;; ret Suspended
         else build_graph ;;; ret Settled
     | _ => build_graph ;;; ret Settled
     end)
    (emit Caught ;;; ret Settled).

(** A call of that function, recorded as such. *)
Definition pop : M Status := emit PopCalled ;;; pop_body.

(** The rest of the [async] body once the promise of [ctx.resume()] has
    settled: a rejection is thrown at the [await], inside the same [try]. *)
Definition pop_resumed (fulfilled : bool) : M unit :=
  try_catch
    (if fulfilled then build_graph else throw)
    (emit Caught).

(** ** Balloon lifecycle: [BalloonsLayer] *)

(** [b.filter((x) => x.id !== i)] *)
Definition remove_id (i : nat) (b : list Balloon) : list Balloon :=
  filter (fun x => negb (id x =? i)) b.

(** [setBalloons((b) => b.filter((x) => x.id !== i))] *)
Definition remove (i : nat) : M unit :=
  emit (RemoveRequest i) ;;;
  modify (with_lay (fun l => set_balloons (remove_id i (balloons l)) l)).

(** [randomBalloon(idRef.current++)] *)
Definition next_balloon : M Balloon :=
  i <- gets (fun w => idRef (lay w)) ;;
  modify (with_lay (set_idRef (S i))) ;;;
  b <- randomBalloon i ;;
  modify (with_glob (add_created b)) ;;;
  ret b.

(** [Array.from({ length: n }, () => f())] *)
Fixpoint Array_from {A} (n : nat) (f : M A) : M (list A) :=
  match n with
  | O => ret []
  | S n' => a <- f ;; l <- Array_from n' f ;; ret (a :: l)
  end.

(** The callback of [setInterval]:
    [setBalloons((b) => (b.length > 35 ? b : b.concat(randomBalloon(idRef.current++))))] *)
Definition spawn_tick : M unit :=
  b <- gets (fun w => balloons (lay w)) ;;
  if 35 <? length b then modify (with_lay (set_balloons b))
  else
    n <- next_balloon ;;
    modify (with_lay (set_balloons (b ++ [n]))).

(** The body of [useEffect(() => { ... }, [enabled])]: the initial burst and
    the interval of 1600 ms. *)
Definition spawn_effect (enabled : bool) : M unit :=
  if negb enabled then ret tt
  else
    initial <- Array_from 12 next_balloon ;;
    modify (with_lay (fun l => set_balloons (balloons l ++ initial) l)) ;;;
    modify (with_lay (set_spawn (Some 1600))).

(** Its cleanup: [return () => clearInterval(spawn)]. *)
Definition spawn_cleanup : M unit :=
  modify (with_lay (set_spawn None)).

(** [onAnimationComplete] of the balloon with id [i]. *)
Definition onAnimationComplete (i : nat) : M unit := remove i.

(** [onClick] of the balloon with id [i].  App.tsx awaits the synthesizer
    inside its own try/catch before it asks for the removal; the other two
    files call it and go on. *)
Definition onClick (i : nat) : M unit :=
  emit StopPropagation ;;;
  match file with
  | App_tsx =>
      s <- try_catch pop (ret Settled) ;;
      match s with
      | Settled => remove i
      | Suspended => modify (with_lay (fun l => set_awaiting (awaiting l ++ [i]) l))
      end
  | _ => pop ;;; remove i
  end.

(** What is left of the App.tsx handler when the awaited call settles. *)
Definition onClick_resumed (i : nat) (fulfilled : bool) : M unit :=
  try_catch (pop_resumed fulfilled) (ret tt) ;;;
  remove i.

End Code.

(** ** Page shell: the part of [Portfolio] that drives the layer *)

(** [Portfolio]'s two [useState] cells, the layer it currently renders (if
    any), the page-wide cells, and the click handlers that outlived their
    layer: a handler parked at [await pop()] is a pending continuation of
    the page, and its closure keeps the refs and the [setBalloons] of the
    instance that rendered it, mounted or not. *)
Record Page := mkPage {
  balloonsOn : bool;         (* const [balloonsOn, setBalloonsOn] = useState(true) *)
  muted : bool;              (* const [muted, setMuted] = useState(false) *)
  layer : option Layer;      (* the mounted BalloonsLayer instance *)
  page : Globals;
  detached : list (Layer * nat)
                             (* handlers parked in layers unmounted since, oldest first:
                                the cells of the instance as it left them, and bl.id *)
}.

(** What can happen to the page. *)
Inductive Event :=
| ToggleBalloons                          (* click on "Toggle balloons" *)
| ToggleMute                              (* click on "Mute pops" *)
| SpawnTick                               (* the interval fires *)
| AnimationComplete (i : nat)             (* the ascent of balloon i ends *)
| Click (i : nat)                         (* balloon i is clicked *)
| ResumeSettled (k : nat) (fulfilled : bool).
                                          (* the promise awaited by the k-th parked handler
                                             of the page settles; oldest first, those of
                                             unmounted layers before those of the mounted one *)

(** [useAudioPop(muted ? 0 : 0.06)] *)
Definition volume (m : bool) : Q := if m then 0%Q else 0.06%Q.

Section Shell.

Variable br : Browser.
Variable file : source_file.

(** The cells of a [BalloonsLayer] at its first render. *)
Definition BalloonsLayer_init (m : bool) : Layer :=
  mkLayer [] 1 None false (volume m) [].

(** The effects after the first render: [volRef.current = volume], then the
    spawn effect. *)
Definition BalloonsLayer_mount (enabled m : bool) : M unit :=
  modify (with_lay (set_volRef (volume m))) ;;;
  spawn_effect br file enabled.

(** The effects after a later render: each runs again only when its
    dependency changed, the spawn effect after its cleanup. *)
Definition BalloonsLayer_update (enabled0 m0 enabled m : bool) : M unit :=
  (if Bool.eqb m0 m then ret tt
   else modify (with_lay (set_volRef (volume m)))) ;;;
  (if Bool.eqb enabled0 enabled then ret tt
   else spawn_cleanup ;;; spawn_effect br file enabled).

(** The effects at unmount: the cleanup of the spawn effect. *)
Definition BalloonsLayer_unmount : M unit := spawn_cleanup.

(** Run layer code against the mounted layer; without one there is no code
    to run. *)
Definition in_layer (m : Layer -> M unit) (p : Page) : Page :=
  match layer p with
  | None => p
  | Some l =>
      let w := snd (m l (mkWorld l (page p))) in
      mkPage (balloonsOn p) (muted p) (Some (lay w)) (glob w) (detached p)
  end.

(** A render of [Portfolio] with new values of its two cells.  The line
    [{balloonsOn && <BalloonsLayer enabled={balloonsOn} muted={muted} />}]
    keeps, mounts or unmounts the layer.  The page loses the cells of an
    unmounted layer, and a layer mounted later starts from fresh ones; the
    handlers parked in the unmounted layer stay pending, each with the cells
    of that instance. *)
Definition commit (on m : bool) (p : Page) : Page :=
  if on then
    match layer p with
    | Some l =>
        let w := snd (BalloonsLayer_update (balloonsOn p) (muted p) on m
                        (mkWorld l (page p))) in
        mkPage on m (Some (lay w)) (glob w) (detached p)
    | None =>
        let w := snd (BalloonsLayer_mount on m
                        (mkWorld (BalloonsLayer_init m) (page p))) in
        mkPage on m (Some (lay w)) (glob w) (detached p)
    end
  else
    match layer p with
    | Some l =>
        let w := snd (BalloonsLayer_unmount (mkWorld l (page p))) in
        mkPage on m None (glob w)
          (detached p ++ map (pair (lay w)) (awaiting (lay w)))
    | None => mkPage on m None (page p) (detached p)
    end.

(** The parked handlers without the [k]-th. *)
Definition drop_nth {A} (k : nat) (l : list A) : list A :=
  firstn k l ++ skipn (S k) l.

(** The continuation of the [k]-th pending handler, one whose layer [l] is
    unmounted: it runs on the cells that instance left behind.  The refs of
    [useAudioPop] still hold what they held; React drops the state update of
    an unmounted component, so what the code writes to [l] is not seen
    again.  The Web Audio calls and the browser counters are the page's. *)
Definition resume_detached (k : nat) (l : Layer) (i : nat) (fulfilled : bool)
    (p : Page) : Page :=
  let w := snd (onClick_resumed br file i fulfilled (mkWorld l (page p))) in
  mkPage (balloonsOn p) (muted p) (layer p) (glob w) (drop_nth k (detached p)).

Definition step (e : Event) (p : Page) : Page :=
  match e with
  | ToggleBalloons => commit (negb (balloonsOn p)) (muted p) p
  | ToggleMute => commit (balloonsOn p) (negb (muted p)) p
  | SpawnTick =>
      in_layer (fun l => match spawn l with
                         | Some _ => spawn_tick br file
                         | None => ret tt
                         end) p
  | AnimationComplete i => in_layer (fun _ => onAnimationComplete i) p
  | Click i => in_layer (fun _ => onClick br file i) p
  | ResumeSettled k fulfilled =>
      match nth_error (detached p) k with
      | Some (l, i) => resume_detached k l i fulfilled p
      | None =>
          let k' := k - length (detached p) in
          in_layer (fun l => match nth_error (awaiting l) k' with
                             | Some i =>
                                 modify (with_lay (set_awaiting (drop_nth k' (awaiting l)))) ;;;
                                 onClick_resumed br file i fulfilled
                             | None => ret tt
                             end) p
      end
  end.

Fixpoint run (es : list Event) (p : Page) : Page :=
  match es with
  | [] => p
  | e :: es' => run es' (step e p)
  end.

(** The page after its first render: [balloonsOn] starts [true], [muted]
    starts [false], so the layer is mounted at once. *)
Definition Portfolio_init : Page :=
  commit true false (mkPage true false None (mkGlobals 0 0 [] []) []).

(** The live set: the balloons on screen. *)
Definition live (p : Page) : list Balloon :=
  match layer p with
  | Some l => balloons l
  | None => []
  end.

End Shell.

(** ** Two browsers to compute with *)

(** A fixed sequence of draws in [0, 1). *)
Definition draws (n : nat) : Q := (Z.of_nat ((n * 37 + 11) mod 100) # 100)%Q.

(** A browser where audio works and the context runs at once. *)
Definition desktop : Browser :=
  mkBrowser draws (fun _ => false) (fun _ => false) (fun n => inject_Z (Z.of_nat n)) 48000.

(** A browser whose context is suspended and where every Web Audio call from
    the fifth on throws. *)
Definition handheld : Browser :=
  mkBrowser draws (fun n => 4 <=? n) (fun _ => true) (fun _ => 0%Q) 44100.

(** * The rest of the page *)

Module Chrome.

Import String.
Local Open Scope string_scope.

(** ** The class-name helper *)

(** An argument of [cx]: [string | boolean | undefined]. *)
Inductive ClassValue := Str (s : string) | Bool (b : bool) | Undefined.

(** [Boolean(c)]: the empty string, [false] and [undefined] are falsy. *)
Definition Boolean (c : ClassValue) : bool :=
  match c with
  | Str s => negb (String.eqb s "")
  | Bool b => b
  | Undefined => false
  end.

(** The text [Array.prototype.join] prints for an element: [undefined] gives
    the empty string, a boolean its name. *)
Definition to_text (c : ClassValue) : string :=
  match c with
  | Str s => s
  | Bool true => "true"
  | Bool false => "false"
  | Undefined => ""
  end.

(** [arr.join(sep)] *)
Definition join (sep : string) (arr : list ClassValue) : string :=
  String.concat sep (List.map to_text arr).

(** [const cx = (...cls) => cls.filter(Boolean).join(" ")] *)
Definition cx (cls : list ClassValue) : string :=
  join " " (List.filter Boolean cls).

(** ** The theme of [Portfolio] (App.tsx and part_000) *)

(** The theme cell, what the effect wrote on [document.documentElement], and
    the "theme" entry of [localStorage] (taken to be readable and
    writable). *)
Record ThemePage := mkThemePage {
  theme : string;                (* const [theme, setTheme] = useState(...) *)
  root_dark : bool;              (* root.classList contains "dark" *)
  root_data_theme : string;      (* root.getAttribute("data-theme") *)
  storage : option string        (* localStorage.getItem("theme") *)
}.

(** [localStorage.getItem("theme") || "dark"] *)
Definition initial_theme (stored : option string) : string :=
  match stored with
  | Some s => if String.eqb s "" then "dark" else s
  | None => "dark"
  end.

(** [const dark = theme === "dark"] *)
Definition dark (t : string) : bool := String.eqb t "dark".

(** The effect on [[theme, dark]]: [classList.toggle("dark", dark)],
    [setAttribute("data-theme", dark ? "dark" : "light")],
    [localStorage.setItem("theme", theme)]. *)
Definition theme_effect (t : string) : ThemePage :=
  mkThemePage t (dark t) (if dark t then "dark" else "light") (Some t).

(** The first render of a page load, with what the storage holds. *)
Definition theme_load (stored : option string) : ThemePage :=
  theme_effect (initial_theme stored).

(** [setTheme((t) => (t === "dark" ? "light" : "dark"))] *)
Definition toggle (t : string) : string :=
  if String.eqb t "dark" then "light" else "dark".

Inductive ThemeEvent := ToggleTheme | Reload.

Definition theme_step (e : ThemeEvent) (p : ThemePage) : ThemePage :=
  match e with
  | ToggleTheme => theme_effect (toggle (theme p))
  | Reload => theme_load (storage p)
  end.

Fixpoint theme_run (es : list ThemeEvent) (p : ThemePage) : ThemePage :=
  match es with
  | nil => p
  | cons e es' => theme_run es' (theme_step e p)
  end.

(** ** The figures of the map section (VisitedPlacesMap.tsx) *)

(** [type Visit = { city; country; date; lat; lng }] *)
Record Visit := mkVisit {
  city : string;
  country : string;
  date : string;
  lat : Q;
  lng : Q
}.

(** A JavaScript number as far as [Math.min] and [Math.max] tell them
    apart. *)
Inductive JsNum := NaN | NegInf | Fin (q : Q) | PosInf.

(** [Number.isNaN(n)] *)
Definition isNaN (n : JsNum) : bool :=
  match n with NaN => true | _ => false end.

(** [a <= b] on numbers; false when either is [NaN]. *)
Definition num_le (a b : JsNum) : bool :=
  match a, b with
  | NaN, _ | _, NaN => false
  | NegInf, _ => true
  | _, PosInf => true
  | Fin p, Fin q => Qle_bool p q
  | _, _ => false
  end.

(** [Math.min] and [Math.max] of two numbers: [NaN] wins. *)
Definition min2 (a b : JsNum) : JsNum :=
  match a, b with
  | NaN, _ | _, NaN => NaN
  | _, _ => if num_le a b then a else b
  end.

Definition max2 (a b : JsNum) : JsNum :=
  match a, b with
  | NaN, _ | _, NaN => NaN
  | _, _ => if num_le a b then b else a
  end.

(** [Math.min(...l)]: [Infinity] for no argument. *)
Definition Math_min (l : list JsNum) : JsNum := List.fold_left min2 l PosInf.

(** [Math.max(...l)]: [-Infinity] for no argument. *)
Definition Math_max (l : list JsNum) : JsNum := List.fold_left max2 l NegInf.

Record Stats := mkStats {
  cities : nat;
  countries : nat;
  first : JsNum;
  last : JsNum
}.

Section Figures.

(** [Number(s)], the conversion of the language, as the browser computes
    it. *)
Variable Number : string -> JsNum.

(** [VISITS.map(v => Number(v.date)).filter(n => !Number.isNaN(n))] *)
Definition years (VISITS : list Visit) : list JsNum :=
  List.filter (fun n => negb (isNaN n)) (List.map (fun v => Number (date v)) VISITS).

(** The body of [useMemo] in [CuriosityMap], over the list [VISITS]. *)
Definition stats (VISITS : list Visit) : Stats :=
  mkStats
    (List.length VISITS)
    (List.length (List.nodup string_dec (List.map country VISITS)))
    (Math_min (years VISITS))
    (Math_max (years VISITS)).

End Figures.

End Chrome.

(** * Vocabulary of the properties *)

(** [Math.random()] returns values in [0, 1). *)
Definition unit_draws (br : Browser) : Prop :=
  forall n, (0 <= random_value br n /\ random_value br n < 1)%Q.

(** The ids of a list of balloons, in order. *)
Definition ids (b : list Balloon) : list nat := map id b.

(** The balloons of the handlers still parked on the page, oldest first:
    those of unmounted layers, then those of the mounted layer. *)
Definition parked (p : Page) : list nat :=
  map snd (detached p)
  ++ match layer p with
     | Some l => awaiting l
     | None => []
     end.

(** A computation never throws. *)
Definition returns {A} (m : M A) : Prop := forall w, exists a, fst (m w) = Val a.

(** A computation moves the world along a relation, whether it returns or
    throws. *)
Definition keeps (R : World -> World -> Prop) {A} (m : M A) : Prop :=
  forall w, R w (snd (m w)).

(** The effects the synthesizer may leave in the log. *)
Definition synth_effect (e : Effect) : Prop :=
  match e with
  | Audio _ | Caught => True
  | _ => False
  end.

(** What synthesizer code may change: the audio context cell, the browser
    counters, and the log, by synthesizer effects only. *)
Definition sound_only (w w' : World) : Prop :=
  balloons (lay w') = balloons (lay w)
  /\ idRef (lay w') = idRef (lay w)
  /\ spawn (lay w') = spawn (lay w)
  /\ volRef (lay w') = volRef (lay w)
  /\ awaiting (lay w') = awaiting (lay w)
  /\ created (glob w') = created (glob w)
  /\ exists t, log (glob w') = log (glob w) ++ t /\ Forall synth_effect t.

Definition is_pop (e : Effect) : bool :=
  match e with PopCalled => true | _ => false end.

(** How many times the synthesizer has been called. *)
Definition pops (l : list Effect) : nat := length (filter is_pop l).

(** The layer cells a click leaves alone, whatever the synthesizer does. *)
Definition click_frame (w w' : World) : Prop :=
  idRef (lay w') = idRef (lay w)
  /\ spawn (lay w') = spawn (lay w)
  /\ volRef (lay w') = volRef (lay w)
  /\ created (glob w') = created (glob w).

(** The handler removed the balloon before it came back. *)
Definition removed_at_once (i : nat) (w w' : World) : Prop :=
  balloons (lay w') = remove_id i (balloons (lay w))
  /\ awaiting (lay w') = awaiting (lay w)
  /\ exists t, log (glob w') = log (glob w) ++ StopPropagation :: PopCalled :: t ++ [RemoveRequest i]
               /\ Forall synth_effect t.

(** The handler came back parked at its await, the balloon still live. *)
Definition parked_at_await (br : Browser) (i : nat) (w w' : World) : Prop :=
  balloons (lay w') = balloons (lay w)
  /\ awaiting (lay w') = awaiting (lay w) ++ [i]
  /\ suspended br (audio_calls (glob w) + (if ctxRef (lay w) then 0 else 1)) = true
  /\ log (glob w')
     = log (glob w) ++ StopPropagation :: PopCalled
                    :: (if ctxRef (lay w) then [] else [Audio new_AudioContext])
                    ++ [Audio resume].

(** A mounted layer under [Portfolio]: at most 36 balloons, the interval
    running, the volume cell in step with the mute toggle, live ids distinct
    and below the counter. *)
Definition layer_ok (m : bool) (l : Layer) : Prop :=
  length (balloons l) <= 36
  /\ spawn l = Some 1600
  /\ volRef l = volume m
  /\ Forall (fun b => id b < idRef l) (balloons l)
  /\ NoDup (ids (balloons l)).

(** The layer is mounted exactly while the toggle is on. *)
Definition page_ok (p : Page) : Prop :=
  match layer p with
  | Some l => balloonsOn p = true /\ layer_ok (muted p) l
  | None => balloonsOn p = false
  end.

(** The page of the desktop browser after [n] ticks of the interval. *)
Definition after_ticks (n : nat) : Page :=
  run desktop App_tsx (repeat SpawnTick n) (Portfolio_init desktop App_tsx).

(** An effect with the numeric value of a gain setting blanked out: what is
    left is which call was made, on what, and when. *)
Definition shape (e : Effect) : Effect :=
  match e with
  | Audio (setValueAtTime gain_gain _ t) => Audio (setValueAtTime gain_gain 0 t)
  | Audio (setValueAtTime noiseGain_gain _ t) => Audio (setValueAtTime noiseGain_gain 0 t)
  | _ => e
  end.

(** A gain setting is inaudible when it is at most 0.0001, the level every
    pop fades out to. *)
Definition quiet_gain (e : Effect) : Prop :=
  match e with
  | Audio (setValueAtTime gain_gain v _) => (v <= 0.0001)%Q
  | Audio (setValueAtTime noiseGain_gain v _) => (v <= 0.0001)%Q
  | _ => True
  end.

(** The calls of one pop whose graph construction runs to its end, in
    order: lines 26-53 of [useAudioPop], made at time [now] with the volume
    cell holding [vol]. *)
Definition graph_calls (br : Browser) (file : source_file) (vol now : Q) : list AudioOp :=
  [createGain gain;
   setValueAtTime gain_gain (start_gain file vol) now;
   exponentialRampToValueAtTime gain_gain 0.0001 (now + 0.12);
   createOscillator;
   set_type_triangle;
   setValueAtTime osc_frequency 240 now;
   exponentialRampToValueAtTime osc_frequency 60 (now + 0.12);
   createBuffer 1 2048 (sampleRate br);
   getChannelData 0;
   fill_data 2048;
   createBufferSource;
   set_buffer;
   createGain noiseGain;
   setValueAtTime noiseGain_gain (vol * 0.4) now;
   exponentialRampToValueAtTime noiseGain_gain 0.0001 (now + 0.05);
   connect osc gain;
   connect noise noiseGain;
   connect noiseGain gain;
   connect gain destination;
   start osc now;
   stop osc (now + 0.13);
   start noise now;
   stop noise (now + 0.06)]%Q.

(** Two worlds that differ at most in the volume cell and in the gain values
    logged so far. *)
Definition same_but_volume (w0 w1 : World) : Prop :=
  balloons (lay w1) = balloons (lay w0)
  /\ idRef (lay w1) = idRef (lay w0)
  /\ spawn (lay w1) = spawn (lay w0)
  /\ ctxRef (lay w1) = ctxRef (lay w0)
  /\ awaiting (lay w1) = awaiting (lay w0)
  /\ random_calls (glob w1) = random_calls (glob w0)
  /\ audio_calls (glob w1) = audio_calls (glob w0)
  /\ created (glob w1) = created (glob w0)
  /\ map shape (log (glob w1)) = map shape (log (glob w0)).

(** Two computations that, from such worlds, return the same result and
    leave such worlds. *)
Definition twin {A} (m0 m1 : M A) : Prop :=
  forall w0 w1, same_but_volume w0 w1 ->
    fst (m0 w0) = fst (m1 w1) /\ same_but_volume (snd (m0 w0)) (snd (m1 w1)).

(** From a muted world, a computation leaves the volume cell at zero and
    logs inaudible gain settings only. *)
Definition muted_run (w w' : World) : Prop :=
  volRef (lay w) = 0%Q ->
  volRef (lay w') = 0%Q
  /\ exists t, log (glob w') = log (glob w) ++ t /\ Forall quiet_gain t.

(** ** Vocabulary of the further properties *)

(** A balloon whose parameters lie in the ranges the factory draws from. *)
Definition factory_ranges (b : Balloon) : Prop :=
  (36 <= size b /\ size b <= 72)%Q
  /\ (2 <= x b /\ x b <= 98)%Q
  /\ (0 <= hue b <= 359)%Z
  /\ (10 <= floatSec b /\ floatSec b <= 20)%Q
  /\ (20 <= sway b /\ sway b <= 80)%Q.

Definition is_ctor (e : Effect) : bool :=
  match e with Audio new_AudioContext => true | _ => false end.

(** How many audio contexts have been constructed. *)
Definition ctors (l : list Effect) : nat := length (filter is_ctor l).

(** Contexts constructed so far, plus one if the layer still has to construct
    its own. *)
Definition ctx_budget (w : World) : nat :=
  ctors (log (glob w)) + (if ctxRef (lay w) then 0 else 1).

(** Layer code keeps that sum, and never forgets a context it holds. *)
Definition ctx_kept (w w' : World) : Prop :=
  ctx_budget w' = ctx_budget w
  /\ (ctxRef (lay w) = true -> ctxRef (lay w') = true).

Definition page_ctx_budget (p : Page) : nat :=
  ctors (log (page p))
  + match layer p with
    | Some l => if ctxRef l then 0 else 1
    | None => 0
    end.

(** Code that neither constructs a context nor touches the context cell. *)
Definition ctx_same (w w' : World) : Prop :=
  ctxRef (lay w') = ctxRef (lay w)
  /\ ctors (log (glob w')) = ctors (log (glob w)).

(** How many of the events mount a layer, from a page whose toggle is [on]. *)
Fixpoint mounts (es : list Event) (on : bool) : nat :=
  match es with
  | [] => 0
  | ToggleBalloons :: es' => (if on then 0 else 1) + mounts es' (negb on)
  | _ :: es' => mounts es' on
  end.



(** A browser whose context is always suspended and where no call throws. *)
Definition phone : Browser :=
  mkBrowser draws (fun _ => false) (fun _ => true) (fun _ => 0%Q) 44100.


(** * Properties *)

(** ** The factory *)

Lemma hue_range (r : Q) : (0 <= r)%Q -> (r < 1)%Q -> (0 <= Qfloor (r * 360) <= 359)%Z.
Proof.
  intros H0 H1. split.
  - change 0%Z with (Qfloor 0). apply Qfloor_resp_le. lra.
  - assert (H : (Qfloor (r * 360) < 360)%Z); [| lia].
    rewrite Zlt_Qlt.
    apply Qle_lt_trans with (r * 360)%Q; [apply Qfloor_le |].
    change (inject_Z 360) with 360%Q. lra.
Qed.

(** C4. For every id, [randomBalloon] returns (it never throws), it consumes
    exactly five draws of [Math.random()] and changes nothing else, and the
    balloon it returns carries the given id, a size in 36..72, a horizontal
    position in 2..98, an integer hue in 0..359, an ascent duration in 10..20
    and a sway in 20..80 -- whenever [Math.random()] returns values in [0, 1),
    in each of the three files. *)
Theorem randomBalloon_in_documented_ranges br file idSeed w :
  unit_draws br ->
  exists b,
    randomBalloon br file idSeed w = (Val b, with_glob (count_random 5) w)
    /\ id b = idSeed
    /\ (36 <= size b /\ size b <= 72)%Q
    /\ (2 <= x b /\ x b <= 98)%Q
    /\ (0 <= hue b <= 359)%Z
    /\ (10 <= floatSec b /\ floatSec b <= 20)%Q
    /\ (20 <= sway b /\ sway b <= 80)%Q.
Proof.
  intros Hr.
  unfold randomBalloon, bind, ret, Math_random.
  eexists. split; [reflexivity |]. cbn [id size x hue floatSec sway].
  cbn [with_glob glob count_random random_calls Nat.add].
  set (c := random_calls (glob w)).
  pose proof (Hr c) as [? ?]. pose proof (Hr (S c)) as [? ?].
  pose proof (Hr (S (S c))) as [? ?]. pose proof (Hr (S (S (S c)))) as [? ?].
  pose proof (Hr (S (S (S (S c))))) as [? ?].
  repeat split; try (apply hue_range; assumption); destruct file; lra.
Qed.

Lemma draws_unit : unit_draws desktop.
Proof.
  intros n. unfold desktop, draws, random_value.
  assert (H : (n * 37 + 11) mod 100 < 100) by (apply Nat.mod_upper_bound; lia).
  unfold Qle, Qlt. cbn [Qnum Qden]. lia.
Qed.

Lemma randomBalloon_in_documented_ranges_witness :
  unit_draws desktop /\
  exists b,
    randomBalloon desktop part_001 7 (mkWorld (BalloonsLayer_init false) (mkGlobals 0 0 [] []))
      = (Val b, with_glob (count_random 5)
                  (mkWorld (BalloonsLayer_init false) (mkGlobals 0 0 [] [])))
    /\ id b = 7
    /\ (36 <= size b /\ size b <= 72)%Q
    /\ (2 <= x b /\ x b <= 98)%Q
    /\ (0 <= hue b <= 359)%Z
    /\ (10 <= floatSec b /\ floatSec b <= 20)%Q
    /\ (20 <= sway b /\ sway b <= 80)%Q.
Proof.
  split; [exact draws_unit |].
  apply (randomBalloon_in_documented_ranges desktop part_001 7 _ draws_unit).
Defined.

(** ** Reasoning about component code *)

Lemma returns_ret {A} (a : A) : returns (ret a).
Proof. intros w. exists a. reflexivity. Qed.

Lemma returns_gets {A} (f : World -> A) : returns (gets f).
Proof. intros w. exists (f w). reflexivity. Qed.

Lemma returns_modify f : returns (modify f).
Proof. intros w. exists tt. reflexivity. Qed.

Lemma returns_bind {A B} (m : M A) (k : A -> M B) :
  returns m -> (forall a, returns (k a)) -> returns (bind m k).
Proof.
  intros Hm Hk w. unfold bind. destruct (Hm w) as [a Ha].
  destruct (m w) as [[a' |] w']; cbn in Ha; [| discriminate].
  apply Hk.
Qed.

Lemma returns_try_catch {A} (body handler : M A) :
  returns handler -> returns (try_catch body handler).
Proof.
  intros Hh w. unfold try_catch.
  destruct (body w) as [[a |] w']; [exists a; reflexivity | apply Hh].
Qed.

Section Frames.

Variable R : World -> World -> Prop.
Hypothesis R_refl : forall w, R w w.
Hypothesis R_trans : forall a b c, R a b -> R b c -> R a c.

Lemma keeps_ret {A} (a : A) : keeps R (ret a).
Proof. intros w. apply R_refl. Qed.

Lemma keeps_throw {A} : keeps R (@throw A).
Proof. intros w. apply R_refl. Qed.

Lemma keeps_gets {A} (f : World -> A) : keeps R (gets f).
Proof. intros w. apply R_refl. Qed.

Lemma keeps_modify f : (forall w, R w (f w)) -> keeps R (modify f).
Proof. intros H w. apply H. Qed.

Lemma keeps_bind {A B} (m : M A) (k : A -> M B) :
  keeps R m -> (forall a, keeps R (k a)) -> keeps R (bind m k).
Proof.
  intros Hm Hk w. unfold bind. specialize (Hm w).
  destruct (m w) as [[a |] w']; cbn in *; [| assumption].
  eapply R_trans; [eassumption | apply Hk].
Qed.

Lemma keeps_try_catch {A} (body handler : M A) :
  keeps R body -> keeps R handler -> keeps R (try_catch body handler).
Proof.
  intros Hb Hh w. unfold try_catch. specialize (Hb w).
  destruct (body w) as [[a |] w']; cbn in *; [assumption |].
  eapply R_trans; [eassumption | apply Hh].
Qed.

Lemma keeps_if {A} (c : bool) (m1 m2 : M A) :
  keeps R m1 -> keeps R m2 -> keeps R (if c then m1 else m2).
Proof. destruct c; auto. Qed.

End Frames.

(** ** The synthesizer leaves the live set alone *)

Lemma sound_only_refl w : sound_only w w.
Proof.
  repeat split. exists []. split; [symmetry; apply app_nil_r | constructor].
Qed.

Lemma sound_only_trans a b c : sound_only a b -> sound_only b c -> sound_only a c.
Proof.
  intros (H1 & H2 & H3 & H4 & H5 & H6 & t & Ht & Ft)
         (K1 & K2 & K3 & K4 & K5 & K6 & u & Hu & Fu).
  repeat split; try congruence.
  exists (t ++ u). split.
  - rewrite Hu, Ht. symmetry. apply app_assoc.
  - apply Forall_app. split; assumption.
Qed.

Section SynthFacts.

Variable br : Browser.
Variable file : source_file.

Lemma sound_only_log e w :
  synth_effect e -> sound_only w (with_glob (add_log e) w).
Proof.
  intros He. repeat split. exists [e]. split; [reflexivity | repeat constructor; exact He].
Qed.

Lemma keeps_emit e : synth_effect e -> keeps sound_only (emit e).
Proof. intros He w. apply sound_only_log, He. Qed.

Lemma keeps_call op : keeps sound_only (call br op).
Proof.
  intros w. unfold call.
  destruct (throws br (audio_calls (glob w))); cbn.
  - repeat split. exists []. split; [symmetry; apply app_nil_r | constructor].
  - repeat split. exists [Audio op]. split; [reflexivity | repeat constructor].
Qed.

Lemma keeps_count_random n : keeps sound_only (modify (with_glob (count_random n))).
Proof.
  apply keeps_modify. intros w. repeat split.
  exists []. split; [symmetry; apply app_nil_r | constructor].
Qed.

Lemma keeps_set_ctxRef c : keeps sound_only (modify (with_lay (set_ctxRef c))).
Proof.
  apply keeps_modify. intros w. repeat split.
  exists []. split; [symmetry; apply app_nil_r | constructor].
Qed.

Ltac keeps_steps :=
  repeat first
    [ apply keeps_bind; [apply sound_only_trans | | intros ?]
    | apply keeps_try_catch; [apply sound_only_trans | |]
    | apply keeps_if
    | apply keeps_call
    | apply keeps_count_random
    | apply keeps_set_ctxRef
    | apply keeps_emit; exact I
    | apply keeps_ret; apply sound_only_refl
    | apply keeps_throw; apply sound_only_refl
    | apply keeps_gets; apply sound_only_refl ].

Lemma keeps_acquire_ctx : keeps sound_only (acquire_ctx br).
Proof. unfold acquire_ctx. keeps_steps. Qed.

Lemma keeps_build_graph : keeps sound_only (build_graph br file).
Proof. unfold build_graph. keeps_steps. Qed.

Lemma keeps_pop_resumed fulfilled : keeps sound_only (pop_resumed br file fulfilled).
Proof. unfold pop_resumed. pose proof keeps_build_graph. keeps_steps; assumption. Qed.

Lemma pop_unfold w : pop br file w = pop_body br file (with_glob (add_log PopCalled) w).
Proof. reflexivity. Qed.

Lemma keeps_pop_body : keeps sound_only (pop_body br file).
Proof.
  unfold pop_body. pose proof keeps_build_graph. pose proof keeps_acquire_ctx.
  destruct file; keeps_steps; assumption.
Qed.

Lemma returns_pop_body : returns (pop_body br file).
Proof.
  unfold pop_body. apply returns_try_catch.
  apply returns_bind; [apply returns_modify | intros; apply returns_ret].
Qed.

Lemma returns_pop_resumed fulfilled : returns (pop_resumed br file fulfilled).
Proof. unfold pop_resumed. apply returns_try_catch. apply returns_modify. Qed.

(** Only App.tsx can come back suspended. *)
Lemma pop_body_suspended w :
  fst (pop_body br file w) = Val Suspended -> file = App_tsx.
Proof.
  unfold pop_body, try_catch, bind, ret, gets, emit, modify.
  destruct file; [reflexivity | |];
    destruct (acquire_ctx br w) as [[[] |] w1]; cbv beta iota;
    try (destruct (build_graph br _ w1) as [[[] |] w2]; cbv beta iota);
    cbn [fst]; discriminate.
Qed.

(** When it does, no call has failed: the context was suspended and the only
    calls made are the constructor (on first use) and [resume]. *)
Lemma pop_body_parks w :
  fst (pop_body br file w) = Val Suspended ->
  suspended br (audio_calls (glob w) + (if ctxRef (lay w) then 0 else 1)) = true
  /\ log (glob (snd (pop_body br file w)))
     = log (glob w) ++ (if ctxRef (lay w) then [] else [Audio new_AudioContext])
                    ++ [Audio resume].
Proof.
  intros H. pose proof (pop_body_suspended w H) as Hf. revert H.
  unfold pop_body. rewrite Hf.
  unfold acquire_ctx, call, try_catch, bind, ret, gets, emit, modify.
  destruct w as [l g]. cbn -[build_graph Nat.add].
  destruct (ctxRef l); cbn -[build_graph Nat.add].
  - rewrite Nat.add_0_r.
    destruct (suspended br (audio_calls g)); cbn -[build_graph].
    + destruct (throws br (audio_calls g)); cbn; [discriminate |].
      intros _. split; reflexivity.
    + match goal with
      | |- context [build_graph br App_tsx ?W] =>
          destruct (build_graph br App_tsx W) as [[[] |] w2]; cbn; discriminate
      end.
  - rewrite Nat.add_1_r.
    destruct (throws br (audio_calls g)); cbn -[build_graph]; [discriminate |].
    destruct (suspended br (S (audio_calls g))); cbn -[build_graph].
    + destruct (throws br (S (audio_calls g))); cbn; [discriminate |].
      intros _. split; [reflexivity |]. rewrite <- app_assoc. reflexivity.
    + match goal with
      | |- context [build_graph br App_tsx ?W] =>
          destruct (build_graph br App_tsx W) as [[[] |] w2]; cbn; discriminate
      end.
Qed.

End SynthFacts.

(** ** The filter behind both removal paths *)

Lemma remove_id_In i b y : In y (remove_id i b) <-> In y b /\ id y <> i.
Proof.
  unfold remove_id. rewrite filter_In, negb_true_iff, Nat.eqb_neq. reflexivity.
Qed.

Lemma remove_id_absent i b : ~ In i (ids b) -> remove_id i b = b.
Proof.
  unfold remove_id, ids. induction b as [| y b IH]; cbn; intros H; [reflexivity |].
  destruct (Nat.eqb_spec (id y) i) as [E | E]; cbn.
  - exfalso. apply H. left. exact E.
  - f_equal. apply IH. intros K. apply H. right. exact K.
Qed.

Lemma remove_id_gone i b : ~ In i (ids (remove_id i b)).
Proof.
  unfold ids. rewrite in_map_iff. intros (y & Hy & Hin).
  apply remove_id_In in Hin. destruct Hin as [_ Hne]. contradiction.
Qed.

Lemma remove_id_idem i b : remove_id i (remove_id i b) = remove_id i b.
Proof. apply remove_id_absent, remove_id_gone. Qed.

Lemma remove_id_length i b : length (remove_id i b) <= length b.
Proof. apply filter_length_le. Qed.

Lemma remove_id_ids i b : ids (remove_id i b) = filter (fun n => negb (n =? i)) (ids b).
Proof.
  unfold remove_id, ids. induction b as [| y b IH]; cbn; [reflexivity |].
  destruct (id y =? i); cbn; rewrite IH; reflexivity.
Qed.

Lemma remove_id_NoDup i b : NoDup (ids b) -> NoDup (ids (remove_id i b)).
Proof. rewrite remove_id_ids. apply NoDup_filter. Qed.

Lemma remove_id_Forall (P : Balloon -> Prop) i b :
  Forall P b -> Forall P (remove_id i b).
Proof.
  rewrite !Forall_forall. intros H y Hy. apply H. apply remove_id_In in Hy. tauto.
Qed.

(** ** What each handler does to the world *)

Lemma pops_app l l' : pops (l ++ l') = pops l + pops l'.
Proof. unfold pops. rewrite filter_app, length_app. reflexivity. Qed.

Lemma pops_synth t : Forall synth_effect t -> pops t = 0.
Proof.
  unfold pops. induction 1 as [| e t He _ IH]; [reflexivity |].
  destruct e; cbn in *; try contradiction; exact IH.
Qed.

Section HandlerFacts.

Variable br : Browser.
Variable file : source_file.

Lemma remove_eq i w :
  remove i w = (Val tt, mkWorld (set_balloons (remove_id i (balloons (lay w))) (lay w))
                                (add_log (RemoveRequest i) (glob w))).
Proof. reflexivity. Qed.

Lemma onClick_spec i w :
  let w' := snd (onClick br file i w) in
  fst (onClick br file i w) = Val tt
  /\ click_frame w w'
  /\ (removed_at_once i w w' \/ (file = App_tsx /\ parked_at_await br i w w')).
Proof.
  set (w1 := with_glob (add_log PopCalled) (with_glob (add_log StopPropagation) w)).
  destruct (returns_pop_body br file w1) as [st Hst].
  pose proof (keeps_pop_body br file w1) as (K1 & K2 & K3 & K4 & K5 & K6 & t & Ht & Ft).
  pose proof (pop_body_suspended br file w1) as Hsus.
  assert (Hlog : log (glob (snd (pop_body br file w1)))
                 = log (glob w) ++ StopPropagation :: PopCalled :: t).
  { rewrite Ht. subst w1. cbn. rewrite <- !app_assoc. reflexivity. }
  assert (E : onClick br file i w =
              match st with
              | Settled => remove i (snd (pop_body br file w1))
              | Suspended =>
                  modify (with_lay (fun l => set_awaiting (awaiting l ++ [i]) l))
                         (snd (pop_body br file w1))
              end).
  { unfold onClick.
    destruct file; unfold bind, emit, modify, try_catch; rewrite pop_unfold;
      change (with_glob (add_log PopCalled) (with_glob (add_log StopPropagation) w)) with w1;
      destruct (pop_body br _ w1) as [[s |] w2]; cbn in Hst; try discriminate;
      injection Hst as ->; cbn [snd];
      (destruct st; [reflexivity | try reflexivity; cbn in Hsus; specialize (Hsus eq_refl); discriminate]). }
  cbv zeta. rewrite E. clear E.
  destruct st.
  - rewrite remove_eq. cbn [fst snd lay glob]. split; [reflexivity |]. split.
    + repeat split; cbn; assumption.
    + left. split; [cbn; rewrite K1; reflexivity |].
      split; [cbn; exact K5 |].
      exists t. split; [| exact Ft].
      cbn. rewrite Hlog. rewrite <- app_assoc. reflexivity.
  - unfold modify. cbn [fst snd]. split; [reflexivity |]. split.
    + repeat split; cbn; assumption.
    + right. split; [apply Hsus; rewrite Hst; reflexivity |].
      split; [cbn; exact K1 |].
      split; [cbn; rewrite K5; reflexivity |].
      destruct (pop_body_parks br file w1 Hst) as (Hs & Hl).
      split; [exact Hs |].
      cbn [glob with_lay snd]. rewrite Hl. subst w1. cbn. rewrite <- !app_assoc. reflexivity.
Qed.

Lemma onClick_resumed_spec i fulfilled w :
  let w' := snd (onClick_resumed br file i fulfilled w) in
  fst (onClick_resumed br file i fulfilled w) = Val tt
  /\ click_frame w w'
  /\ balloons (lay w') = remove_id i (balloons (lay w))
  /\ awaiting (lay w') = awaiting (lay w)
  /\ exists t, log (glob w') = log (glob w) ++ t ++ [RemoveRequest i]
               /\ Forall synth_effect t.
Proof.
  destruct (returns_pop_resumed br file fulfilled w) as [[] Hst].
  pose proof (keeps_pop_resumed br file fulfilled w) as (K1 & K2 & K3 & K4 & K5 & K6 & t & Ht & Ft).
  assert (E : onClick_resumed br file i fulfilled w
              = remove i (snd (pop_resumed br file fulfilled w))).
  { unfold onClick_resumed, bind, try_catch.
    destruct (pop_resumed br file fulfilled w) as [[[] |] w2]; cbn in Hst; [| discriminate].
    reflexivity. }
  cbv zeta. rewrite E, remove_eq. cbn [fst snd lay glob].
  split; [reflexivity |]. split; [repeat split; cbn; assumption |].
  split; [cbn; rewrite K1; reflexivity |].
  split; [cbn; exact K5 |].
  exists t. split; [| exact Ft]. cbn. rewrite Ht. rewrite <- app_assoc. reflexivity.
Qed.

(** [randomBalloon(idRef.current++)] returns a balloon carrying the old
    counter value, and bumps the counter. *)
Lemma next_balloon_spec w :
  exists b,
    next_balloon br file w
    = (Val b, mkWorld (set_idRef (S (idRef (lay w))) (lay w))
                      (add_created b (count_random 5 (glob w))))
    /\ id b = idRef (lay w).
Proof.
  unfold next_balloon, bind, gets, modify, ret, randomBalloon, Math_random.
  eexists. split; reflexivity.
Qed.

Lemma spawn_tick_spec w :
  if length (balloons (lay w)) <=? 35
  then exists n,
      spawn_tick br file w
      = (Val tt, mkWorld (set_balloons (balloons (lay w) ++ [n])
                            (set_idRef (S (idRef (lay w))) (lay w)))
                         (add_created n (count_random 5 (glob w))))
      /\ id n = idRef (lay w)
  else spawn_tick br file w = (Val tt, w).
Proof.
  unfold spawn_tick, bind, gets. cbv beta iota.
  destruct (Nat.leb_spec (length (balloons (lay w))) 35) as [H | H].
  - apply Nat.ltb_ge in H. rewrite H.
    destruct (next_balloon_spec w) as (n & E & Hn). rewrite E. cbv beta iota.
    exists n. split; [reflexivity | exact Hn].
  - apply Nat.ltb_lt in H. rewrite H. unfold modify.
    destruct w as [[] ?]. reflexivity.
Qed.

Lemma Array_from_next_balloon n w :
  exists l g,
    Array_from n (next_balloon br file) w
    = (Val l, mkWorld (set_idRef (n + idRef (lay w)) (lay w)) g)
    /\ ids l = seq (idRef (lay w)) n
    /\ created g = created (glob w) ++ l
    /\ log g = log (glob w)
    /\ audio_calls g = audio_calls (glob w).
Proof.
  revert w. induction n as [| n IH]; intros w.
  - exists [], (glob w). cbn. destruct w as [[] ?]. cbn.
    repeat split. symmetry. apply app_nil_r.
  - cbn [Array_from]. unfold bind at 1.
    destruct (next_balloon_spec w) as (b & E & Hb). rewrite E.
    unfold bind at 1.
    destruct (IH (mkWorld (set_idRef (S (idRef (lay w))) (lay w))
                          (add_created b (count_random 5 (glob w)))))
      as (l & g & El & Hids & Hc & Hl & Ha).
    rewrite El. exists (b :: l), g. unfold ids in *. cbn in *.
    repeat split; try assumption.
    + rewrite Nat.add_succ_r. reflexivity.
    + rewrite Hb, Hids. reflexivity.
    + rewrite Hc, <- app_assoc. reflexivity.
Qed.

End HandlerFacts.

(** ** Invariants of the page *)

Lemma layer_ok_remove m i l :
  layer_ok m l -> layer_ok m (set_balloons (remove_id i (balloons l)) l).
Proof.
  intros (H1 & H2 & H3 & H4 & H5). unfold layer_ok. cbn.
  repeat split; try assumption.
  - pose proof (remove_id_length i (balloons l)). lia.
  - apply remove_id_Forall, H4.
  - apply remove_id_NoDup, H5.
Qed.

(** A layer that agrees with a good one on the five cells is good. *)
Lemma layer_ok_ext m l l' :
  balloons l' = balloons l -> idRef l' = idRef l -> spawn l' = spawn l ->
  volRef l' = volRef l -> layer_ok m l -> layer_ok m l'.
Proof.
  intros E1 E2 E3 E4 (H1 & H2 & H3 & H4 & H5). unfold layer_ok.
  rewrite E1, E2, E3, E4. repeat split; assumption.
Qed.

Lemma NoDup_ids_snoc b n k :
  Forall (fun y => id y < k) b -> id n = k -> NoDup (ids b) -> NoDup (ids (b ++ [n])).
Proof.
  intros Hlt Hn Hnd. unfold ids in *. rewrite map_app. cbn.
  apply NoDup_app; [exact Hnd | repeat constructor; intros [] | ].
  intros a Ha [<- | []]. apply in_map_iff in Ha. destruct Ha as (y & Hy & Hin).
  rewrite Forall_forall in Hlt. specialize (Hlt y Hin). lia.
Qed.

Section PageFacts.

Variable br : Browser.
Variable file : source_file.

Lemma mount_spec m g :
  exists l g',
    BalloonsLayer_mount br file true m (mkWorld (BalloonsLayer_init m) g)
    = (Val tt, mkWorld (mkLayer l 13 (Some 1600) false (volume m) []) g')
    /\ ids l = seq 1 12
    /\ created g' = created g ++ l
    /\ log g' = log g
    /\ audio_calls g' = audio_calls g.
Proof.
  unfold BalloonsLayer_mount, spawn_effect, bind, modify. cbn [negb].
  match goal with
  | |- context [Array_from 12 _ ?W] =>
      destruct (Array_from_next_balloon br file 12 W) as (l & g' & E & Hids & Hc & Hl & Ha)
  end.
  rewrite E. exists l, g'. cbn in *. repeat split; assumption.
Qed.

Lemma layer_ok_mounted m l :
  ids l = seq 1 12 -> layer_ok m (mkLayer l 13 (Some 1600) false (volume m) []).
Proof.
  intros Hids. unfold layer_ok. cbn [balloons idRef spawn volRef].
  assert (Hlen : length l = 12).
  { rewrite <- (length_map id l). fold (ids l). rewrite Hids. reflexivity. }
  repeat split.
  - lia.
  - rewrite Forall_forall. intros y Hy.
    assert (Hin : In (id y) (seq 1 12)) by (rewrite <- Hids; apply in_map; exact Hy).
    apply in_seq in Hin. lia.
  - rewrite Hids. apply seq_NoDup.
Qed.

Lemma page_ok_init : page_ok (Portfolio_init br file).
Proof.
  unfold Portfolio_init, commit. cbn [layer page].
  destruct (mount_spec false (mkGlobals 0 0 [] [])) as (l & g' & E & Hids & _).
  rewrite E. unfold page_ok. cbn. split; [reflexivity |].
  apply (layer_ok_mounted false), Hids.
Qed.

Lemma page_ok_step e p : page_ok p -> page_ok (step br file e p).
Proof.
  unfold page_ok. intros Hp. destruct p as [on m [l |] g d]; cbn [layer balloonsOn muted] in Hp.
  - destruct Hp as [-> Hl].
    destruct e as [| | | i | i | k fulfilled]; unfold step.
    + (* ToggleBalloons: the layer goes *)
      unfold commit. cbn. reflexivity.
    + (* ToggleMute *)
      unfold commit, BalloonsLayer_update, bind, modify, ret. cbn.
      destruct m; cbn; (split; [reflexivity |]);
        destruct Hl as (H1 & H2 & H3 & H4 & H5); repeat split; assumption.
    + (* SpawnTick *)
      unfold in_layer. cbn [layer balloonsOn muted page].
      destruct Hl as (H1 & H2 & H3 & H4 & H5). rewrite H2.
      pose proof (spawn_tick_spec br file (mkWorld l g)) as Ht. cbn [lay glob] in Ht.
      destruct (Nat.leb_spec (length (balloons l)) 35) as [Hle | Hgt].
      * destruct Ht as (n & E & Hn). rewrite E. cbn. split; [reflexivity |].
        repeat split; cbn; try assumption.
        -- rewrite length_app. cbn. lia.
        -- apply Forall_app. split.
           ++ eapply Forall_impl; [| exact H4]. cbn. intros; lia.
           ++ constructor; [lia | constructor].
        -- eapply NoDup_ids_snoc; eassumption.
      * rewrite Ht. cbn. split; [reflexivity |]. repeat split; assumption.
    + (* AnimationComplete *)
      unfold in_layer, onAnimationComplete. cbn [layer balloonsOn muted page].
      rewrite remove_eq. cbn. split; [reflexivity |]. apply layer_ok_remove, Hl.
    + (* Click *)
      unfold in_layer. cbn [layer balloonsOn muted page].
      destruct (onClick_spec br file i (mkWorld l g)) as (_ & (F1 & F2 & F3 & _) & Hc).
      cbn [lay glob] in *. split; [reflexivity |].
      destruct Hc as [(B & _) | (_ & B & _)].
      * eapply layer_ok_ext; [| | | | apply (layer_ok_remove m i l Hl)]; cbn; assumption.
      * eapply layer_ok_ext; [| | | | exact Hl]; assumption.
    + (* ResumeSettled *)
      cbn [detached].
      destruct (nth_error d k) as [[l' j] |];
        [unfold resume_detached; cbn; split; [reflexivity | exact Hl] |].
      cbv zeta. unfold in_layer. cbn [layer balloonsOn muted page].
      split; [reflexivity |].
      destruct (nth_error (awaiting l) _) as [i |]; [| exact Hl].
      unfold bind, modify. cbv beta iota.
      match goal with
      | |- context [onClick_resumed br file i fulfilled ?W] =>
          destruct (onClick_resumed_spec br file i fulfilled W)
            as (_ & (F1 & F2 & F3 & _) & B & _)
      end.
      cbn [lay glob with_lay set_awaiting balloons idRef spawn volRef] in *.
      eapply layer_ok_ext; [| | | | apply (layer_ok_remove m i l Hl)]; cbn; assumption.
  - subst on.
    destruct e as [| | | i | i | k fulfilled]; unfold step; try reflexivity.
    + unfold commit. cbn [negb layer balloonsOn muted page].
      destruct (mount_spec m g) as (l & g' & E & Hids & _).
      rewrite E. cbn. split; [reflexivity |]. apply layer_ok_mounted, Hids.
    + cbn [detached]. destruct (nth_error d k) as [[l' j] |]; reflexivity.
Qed.

Lemma page_ok_run es p : page_ok p -> page_ok (run br file es p).
Proof.
  revert p. induction es as [| e es IH]; intros p Hp; [exact Hp |].
  cbn. apply IH, page_ok_step, Hp.
Qed.

Lemma page_ok_reachable es : page_ok (run br file es (Portfolio_init br file)).
Proof. apply page_ok_run, page_ok_init. Qed.

End PageFacts.

(** ** The population cap *)

Section Population.

Variable br : Browser.
Variable file : source_file.

(** A tick on a good page: one more balloon while the set holds at most 35,
    nothing otherwise. *)
Lemma tick_on_page p l :
  page_ok p -> layer p = Some l ->
  if length (balloons l) <=? 35
  then exists n, id n = idRef l
                 /\ live (step br file SpawnTick p) = balloons l ++ [n]
  else step br file SpawnTick p = p.
Proof.
  intros Hp Hl. unfold page_ok in Hp. rewrite Hl in Hp.
  destruct Hp as (_ & _ & Hs & _).
  unfold step, in_layer, live. rewrite Hl, Hs.
  pose proof (spawn_tick_spec br file (mkWorld l (page p))) as Ht. cbn [lay glob] in Ht.
  destruct (length (balloons l) <=? 35).
  - destruct Ht as (n & E & Hn). rewrite E. exists n. split; [exact Hn | reflexivity].
  - rewrite Ht. cbn. destruct p; cbn in *. subst. reflexivity.
Qed.

Lemma live_length_bound es :
  length (live (run br file es (Portfolio_init br file))) <= 36.
Proof.
  pose proof (page_ok_reachable br file es) as Hp.
  unfold page_ok, live in *.
  destruct (layer (run br file es (Portfolio_init br file))) as [l |]; cbn; [| lia].
  destruct Hp as (_ & H & _). exact H.
Qed.

(** From the first render, [n] ticks with nothing removed give
    [min 36 (12 + n)] balloons. *)
Lemma ticks_fill_up n p l :
  page_ok p -> layer p = Some l ->
  length (live (run br file (repeat SpawnTick n) p)) = Nat.min 36 (length (balloons l) + n).
Proof.
  revert p l. induction n as [| n IH]; intros p l Hp Hl.
  - cbn [repeat run]. unfold live. rewrite Hl.
    unfold page_ok in Hp. rewrite Hl in Hp. destruct Hp as (_ & H & _). lia.
  - cbn [repeat run].
    pose proof (tick_on_page p l Hp Hl) as Ht.
    pose proof (page_ok_step br file SpawnTick p Hp) as Hp1.
    assert (Hlen : length (balloons l) <= 36).
    { unfold page_ok in Hp. rewrite Hl in Hp. destruct Hp as (_ & H & _). exact H. }
    destruct (Nat.leb_spec (length (balloons l)) 35) as [Hle | Hgt].
    + destruct Ht as (b & _ & E).
      unfold live in E.
      destruct (layer (step br file SpawnTick p)) as [l1 |] eqn:Hl1.
      * rewrite (IH _ l1 Hp1 Hl1), E, length_app. cbn [length]. lia.
      * unfold page_ok in Hp1. rewrite Hl1 in Hp1.
        destruct (balloons l); discriminate.
    + rewrite Ht. rewrite (IH p l Hp Hl). lia.
Qed.

End Population.

Section Enabling.

Variable br : Browser.
Variable file : source_file.

(** Mounting the layer: twelve balloons with ids 1..12, the counter at 13,
    the interval started with period 1600 ms. *)
Lemma enable_spec p :
  balloonsOn p = false -> layer p = None ->
  exists l,
    layer (step br file ToggleBalloons p)
    = Some (mkLayer l 13 (Some 1600) false (volume (muted p)) [])
    /\ ids l = seq 1 12
    /\ balloonsOn (step br file ToggleBalloons p) = true.
Proof.
  intros Hon Hl. unfold step, commit. rewrite Hon, Hl. cbn [negb].
  destruct (mount_spec br file (muted p) (page p)) as (l & g' & E & Hids & _).
  rewrite E. exists l. cbn. repeat split. exact Hids.
Qed.

Lemma init_spec :
  exists l,
    layer (Portfolio_init br file) = Some (mkLayer l 13 (Some 1600) false (volume false) [])
    /\ ids l = seq 1 12.
Proof.
  unfold Portfolio_init, commit. cbn [layer page].
  destruct (mount_spec br file false (mkGlobals 0 0 [] [])) as (l & g' & E & Hids & _).
  rewrite E. exists l. cbn. split; [reflexivity | exact Hids].
Qed.

Lemma ids_length (l : list Balloon) n k : ids l = seq k n -> length l = n.
Proof.
  intros H. rewrite <- (length_map id l). fold (ids l). rewrite H. apply length_seq.
Qed.

End Enabling.

(** ** The claims about spawning *)

(** C10. The guard of the spawn tick appends one new balloon exactly when the
    live set holds at most 35 balloons and leaves the world as it is
    otherwise; so on the page the live set never holds more than 36 balloons,
    and 36 is reached (by 24 ticks after the first render, in every browser
    and in each of the three files). *)
Theorem spawn_guard_lets_the_set_reach_36 :
  (forall br file w,
      if length (balloons (lay w)) <=? 35
      then exists n,
          id n = idRef (lay w)
          /\ balloons (lay (snd (spawn_tick br file w))) = balloons (lay w) ++ [n]
      else snd (spawn_tick br file w) = w)
  /\ (forall br file es, length (live (run br file es (Portfolio_init br file))) <= 36)
  /\ (forall br file,
         length (live (run br file (repeat SpawnTick 24) (Portfolio_init br file))) = 36).
Proof.
  split; [| split].
  - intros br file w. pose proof (spawn_tick_spec br file w) as H.
    destruct (length (balloons (lay w)) <=? 35).
    + destruct H as (n & E & Hn). exists n. rewrite E. split; [exact Hn | reflexivity].
    + rewrite H. reflexivity.
  - intros br file es. apply live_length_bound.
  - intros br file.
    destruct (init_spec br file) as (l & Hl & Hids).
    rewrite (ticks_fill_up br file 24 _ _ (page_ok_init br file) Hl).
    cbn [balloons]. rewrite (ids_length l 12 1 Hids). reflexivity.
Qed.

(** C1, as stated, fails: after 23 ticks the live set holds 35 balloons, and
    the next tick adds a 36th. *)
Lemma cap_of_35_counterexample :
  length (live (after_ticks 23)) = 35
  /\ live (step desktop App_tsx SpawnTick (after_ticks 23)) <> live (after_ticks 23)
  /\ ~ length (live (step desktop App_tsx SpawnTick (after_ticks 23))) <= 35.
Proof.
  split; [vm_compute; reflexivity |]. split.
  - intros H. apply (f_equal (@length Balloon)) in H. vm_compute in H. discriminate.
  - assert (E : length (live (step desktop App_tsx SpawnTick (after_ticks 23))) = 36)
      by (vm_compute; reflexivity).
    rewrite E. lia.
Qed.

(** C1, amended. For every sequence of events the live set never holds more
    than 36 balloons; a spawn tick never evicts (the old set is a prefix of
    the new one); and a tick that fires when the set already holds 36
    balloons leaves the set unchanged. *)
Theorem live_set_never_exceeds_36 br file es :
  let p := run br file es (Portfolio_init br file) in
  length (live p) <= 36
  /\ (exists t, live (step br file SpawnTick p) = live p ++ t)
  /\ (length (live p) = 36 -> live (step br file SpawnTick p) = live p).
Proof.
  cbv zeta. set (p := run br file es (Portfolio_init br file)).
  pose proof (page_ok_reachable br file es) as Hp. fold p in Hp.
  split; [apply live_length_bound |].
  destruct (layer p) as [l |] eqn:Hl.
  - pose proof (tick_on_page br file p l Hp Hl) as Ht.
    assert (Hlive : live p = balloons l) by (unfold live; rewrite Hl; reflexivity).
    rewrite Hlive.
    destruct (Nat.leb_spec (length (balloons l)) 35) as [Hle | Hgt].
    + destruct Ht as (n & _ & E). rewrite E. split; [exists [n]; reflexivity | lia].
    + rewrite Ht. rewrite Hlive. split; [exists []; symmetry; apply app_nil_r | reflexivity].
  - assert (E : step br file SpawnTick p = p) by (unfold step, in_layer; rewrite Hl; reflexivity).
    rewrite E. split; [exists []; symmetry; apply app_nil_r | reflexivity].
Qed.

Lemma live_set_never_exceeds_36_witness :
  length (live (run desktop App_tsx (repeat SpawnTick 24) (Portfolio_init desktop App_tsx))) = 36
  /\ live (step desktop App_tsx SpawnTick
             (run desktop App_tsx (repeat SpawnTick 24) (Portfolio_init desktop App_tsx)))
     = live (run desktop App_tsx (repeat SpawnTick 24) (Portfolio_init desktop App_tsx)).
Proof.
  assert (H : length (live (run desktop App_tsx (repeat SpawnTick 24)
                              (Portfolio_init desktop App_tsx))) = 36)
    by (vm_compute; reflexivity).
  split; [exact H |].
  pose proof (live_set_never_exceeds_36 desktop App_tsx (repeat SpawnTick 24)) as K.
  cbv zeta in K. destruct K as (_ & _ & K).
  apply K. exact H.
Defined.

(** C5. On every reachable page: enabling from the disabled state (where the
    live set is empty) gives a live set of exactly 12 balloons at once and
    starts the interval with period 1600 ms (1.6 s); while enabled and below
    the cap of 35, each firing of the interval appends exactly one balloon,
    with an id no live balloon has; while disabled a firing does nothing.
    The first render, which starts enabled, gives 12 balloons too. *)
Theorem enabling_bursts_12_then_one_per_tick br file es :
  let p := run br file es (Portfolio_init br file) in
  length (live (Portfolio_init br file)) = 12
  /\ (balloonsOn p = false ->
      live p = []
      /\ length (live (step br file ToggleBalloons p)) = 12
      /\ exists l, layer (step br file ToggleBalloons p) = Some l /\ spawn l = Some 1600)
  /\ (balloonsOn p = true -> length (live p) < 35 ->
      exists n, live (step br file SpawnTick p) = live p ++ [n]
                /\ ~ In (id n) (ids (live p)))
  /\ (balloonsOn p = false -> step br file SpawnTick p = p).
Proof.
  cbv zeta. set (p := run br file es (Portfolio_init br file)).
  pose proof (page_ok_reachable br file es) as Hp. fold p in Hp.
  split; [| split; [| split]].
  - destruct (init_spec br file) as (l & Hl & Hids). unfold live. rewrite Hl.
    cbn [balloons]. apply (ids_length l 12 1 Hids).
  - intros Hoff. unfold page_ok in Hp.
    destruct (layer p) as [l |] eqn:Hl; [destruct Hp; congruence |].
    destruct (enable_spec br file p Hoff Hl) as (l' & E & Hids & _).
    split; [unfold live; rewrite Hl; reflexivity |].
    unfold live. rewrite E. cbn [balloons]. split; [apply (ids_length l' 12 1 Hids) |].
    eexists. split; reflexivity.
  - intros Hon Hlt. unfold page_ok in Hp.
    destruct (layer p) as [l |] eqn:Hl; [| congruence].
    assert (Hlive : live p = balloons l) by (unfold live; rewrite Hl; reflexivity).
    assert (Hp' : page_ok p) by (unfold page_ok; rewrite Hl; exact Hp).
    pose proof (tick_on_page br file p l Hp' Hl) as Ht.
    rewrite Hlive in *.
    destruct (Nat.leb_spec (length (balloons l)) 35) as [Hle | Hgt]; [| lia].
    destruct Ht as (n & Hn & E). exists n. split; [exact E |].
    destruct Hp as (_ & _ & _ & _ & Hb & _).
    unfold ids. rewrite in_map_iff. intros (y & Hy & Hin).
    rewrite Forall_forall in Hb. specialize (Hb y Hin). lia.
  - intros Hoff. unfold page_ok in Hp.
    destruct (layer p) as [l |] eqn:Hl; [destruct Hp; congruence |].
    unfold step, in_layer. rewrite Hl. reflexivity.
Qed.

Lemma enabling_bursts_12_then_one_per_tick_witness :
  (balloonsOn (run desktop App_tsx [ToggleBalloons] (Portfolio_init desktop App_tsx)) = false
   /\ length (live (step desktop App_tsx ToggleBalloons
                      (run desktop App_tsx [ToggleBalloons]
                         (Portfolio_init desktop App_tsx)))) = 12)
  /\ (balloonsOn (Portfolio_init desktop App_tsx) = true
      /\ length (live (Portfolio_init desktop App_tsx)) < 35
      /\ exists n, live (step desktop App_tsx SpawnTick
                               (run desktop App_tsx [] (Portfolio_init desktop App_tsx)))
                   = live (run desktop App_tsx [] (Portfolio_init desktop App_tsx)) ++ [n]
                   /\ ~ In (id n)
                          (ids (live (run desktop App_tsx [] (Portfolio_init desktop App_tsx))))).
Proof.
  split.
  - assert (Hoff : balloonsOn (run desktop App_tsx [ToggleBalloons]
                                 (Portfolio_init desktop App_tsx)) = false)
      by (vm_compute; reflexivity).
    split; [exact Hoff |].
    pose proof (enabling_bursts_12_then_one_per_tick desktop App_tsx [ToggleBalloons]) as K.
    cbv zeta in K. destruct K as (_ & K & _).
    destruct (K Hoff) as (_ & K12 & _). exact K12.
  - assert (Hon : balloonsOn (Portfolio_init desktop App_tsx) = true)
      by (vm_compute; reflexivity).
    assert (H : length (live (Portfolio_init desktop App_tsx)) < 35) by (vm_compute; lia).
    split; [exact Hon |]. split; [exact H |].
    pose proof (enabling_bursts_12_then_one_per_tick desktop App_tsx []) as K.
    cbv zeta in K. destruct K as (_ & _ & K & _).
    exact (K Hon H).
Defined.

(** ** Removal on the page *)

Lemma remove_id_length_present i b :
  NoDup (ids b) -> In i (ids b) -> S (length (remove_id i b)) = length b.
Proof.
  unfold ids. induction b as [| y b IH]; cbn [map]; intros Hnd Hin; [destruct Hin |].
  inversion Hnd as [| ? ? Hy Hnd']; subst.
  unfold remove_id. cbn [filter]. fold (remove_id i b).
  destruct (Nat.eqb_spec (id y) i) as [E | E]; cbn [negb length].
  - subst i. rewrite (remove_id_absent (id y) b Hy). reflexivity.
  - destruct Hin as [K | K]; [contradiction |]. rewrite (IH Hnd' K). reflexivity.
Qed.

Section Removal.

Variable br : Browser.
Variable file : source_file.

Lemma complete_on_page i p :
  live (step br file (AnimationComplete i) p) = remove_id i (live p).
Proof.
  unfold step, in_layer, live, onAnimationComplete.
  destruct (layer p) as [l |] eqn:Hl; cbn [layer].
  - rewrite remove_eq. reflexivity.
  - rewrite Hl. reflexivity.
Qed.

(** A click on the page: the synthesizer is called once, and the balloon is
    either removed in the same step or (App.tsx) its handler is parked. *)
Lemma click_on_page i p l :
  layer p = Some l ->
  let p1 := step br file (Click i) p in
  (exists t, log (page p1) = log (page p) ++ StopPropagation :: PopCalled :: t
             /\ pops t = 0
             /\ (live p1 = remove_id i (live p) /\ parked p1 = parked p
                 /\ (exists t', t = t' ++ [RemoveRequest i])
                 \/ file = App_tsx /\ live p1 = live p /\ parked p1 = parked p ++ [i]
                    /\ suspended br (audio_calls (page p) + (if ctxRef l then 0 else 1)) = true
                    /\ t = (if ctxRef l then [] else [Audio new_AudioContext])
                           ++ [Audio resume])).
Proof.
  intros Hl. cbv zeta. unfold step, in_layer, live, parked. rewrite Hl.
  cbn [layer page detached].
  destruct (onClick_spec br file i (mkWorld l (page p))) as (_ & _ & Hc).
  unfold removed_at_once, parked_at_await in Hc. cbn [lay glob] in Hc.
  destruct Hc as [(B & A & t & Ht & Ft) | (Hf & B & A & Hs & Ht)].
  - exists (t ++ [RemoveRequest i]). split; [exact Ht |]. split.
    + rewrite pops_app, (pops_synth t Ft). reflexivity.
    + left. rewrite A. repeat split; try assumption. exists t. reflexivity.
  - eexists. split; [exact Ht |]. split; [destruct (ctxRef l); reflexivity |].
    right. rewrite A, app_assoc. repeat split; assumption.
Qed.

Lemma click_counts_one_pop i p l :
  layer p = Some l ->
  pops (log (page (step br file (Click i) p))) = S (pops (log (page p))).
Proof.
  intros Hl. destruct (click_on_page i p l Hl) as (t & Ht & Hpop & _).
  rewrite Ht, pops_app. unfold pops in *. cbn. rewrite Hpop. lia.
Qed.

(** Whose handler the [k]-th parked one is: one of an unmounted layer, or
    one of the mounted layer. *)
Lemma parked_nth p k j :
  nth_error (parked p) k = Some j ->
  (k < length (detached p) /\ exists l, nth_error (detached p) k = Some (l, j))
  \/ (length (detached p) <= k /\ nth_error (detached p) k = None
      /\ exists l, layer p = Some l
                   /\ nth_error (awaiting l) (k - length (detached p)) = Some j).
Proof.
  unfold parked. intros Hk.
  destruct (Nat.lt_ge_cases k (length (detached p))) as [Hlt | Hge].
  - left. split; [exact Hlt |].
    rewrite nth_error_app1 in Hk by (rewrite length_map; exact Hlt).
    rewrite nth_error_map in Hk.
    destruct (nth_error (detached p) k) as [[l j'] |]; [| discriminate].
    exists l. cbn in Hk. congruence.
  - right. split; [exact Hge |]. split; [apply nth_error_None; exact Hge |].
    rewrite nth_error_app2 in Hk by (rewrite length_map; exact Hge).
    rewrite length_map in Hk.
    destruct (layer p) as [l |]; [exists l; split; [reflexivity | exact Hk] |].
    destruct (k - length (detached p)); discriminate.
Qed.

Lemma drop_nth_app1 {A} k (a b : list A) :
  k < length a -> drop_nth k (a ++ b) = drop_nth k a ++ b.
Proof.
  intros H. unfold drop_nth. rewrite firstn_app, skipn_app.
  replace (k - length a) with 0 by lia. replace (S k - length a) with 0 by lia.
  cbn [firstn skipn]. rewrite app_nil_r, app_assoc. reflexivity.
Qed.

Lemma drop_nth_app2 {A} k (a b : list A) :
  length a <= k -> drop_nth k (a ++ b) = a ++ drop_nth (k - length a) b.
Proof.
  intros H. unfold drop_nth. rewrite firstn_app, skipn_app.
  rewrite (firstn_all2 a) by lia. rewrite (skipn_all2 a) by lia.
  replace (S k - length a) with (S (k - length a)) by lia.
  cbn [app]. rewrite <- app_assoc. reflexivity.
Qed.

Lemma drop_nth_beyond {A} k (a : list A) : length a <= k -> drop_nth k a = a.
Proof.
  intros H. unfold drop_nth. rewrite firstn_all2, skipn_all2, app_nil_r by lia.
  reflexivity.
Qed.

Lemma drop_nth_map {A B} (f : A -> B) k (a : list A) :
  drop_nth k (map f a) = map f (drop_nth k a).
Proof. unfold drop_nth. rewrite map_app, firstn_map, skipn_map. reflexivity. Qed.

(** The promise a parked handler waits on settles: the synthesizer is not
    called again and the removal is requested, whatever the outcome.  A
    handler of the mounted layer removes its balloon; the request of a
    handler whose layer is unmounted reaches no live balloon. *)
Lemma resume_on_page k j fulfilled p :
  nth_error (parked p) k = Some j ->
  let p2 := step br file (ResumeSettled k fulfilled) p in
  (length (detached p) <= k /\ live p2 = remove_id j (live p)
   \/ k < length (detached p) /\ layer p2 = layer p)
  /\ parked p2 = drop_nth k (parked p)
  /\ detached p2 = drop_nth k (detached p)
  /\ exists t, log (page p2) = log (page p) ++ t ++ [RemoveRequest j]
               /\ Forall synth_effect t.
Proof.
  cbv zeta. intros Hk.
  destruct (parked_nth p k j Hk) as [(Hlt & l & Hd) | (Hge & Hd & l & Hl & Ha)];
    unfold step; rewrite Hd.
  - unfold resume_detached, parked. cbn [layer page detached].
    destruct (onClick_resumed_spec br file j fulfilled (mkWorld l (page p)))
      as (_ & _ & _ & _ & t & Ht & Ft).
    cbn [lay glob] in Ht.
    split; [right; split; [exact Hlt | reflexivity] |].
    split; [rewrite drop_nth_app1, drop_nth_map by (rewrite length_map; exact Hlt);
            reflexivity |].
    split; [symmetry; exact (eq_refl _) |].
    exists t. split; assumption.
  - cbv zeta. unfold in_layer, live, parked. rewrite Hl, Ha.
    unfold bind, modify. cbv beta iota.
    match goal with
    | |- context [onClick_resumed br file j fulfilled ?W] =>
        destruct (onClick_resumed_spec br file j fulfilled W) as (_ & _ & B & A & t & Ht & Ft)
    end.
    cbn [lay glob with_lay set_awaiting balloons awaiting layer page detached] in *.
    split; [left; split; assumption |].
    split; [rewrite A, drop_nth_app2, length_map by (rewrite length_map; exact Hge);
            reflexivity |].
    split; [rewrite drop_nth_beyond by exact Hge; reflexivity |].
    exists t. split; assumption.
Qed.

(** A settling that belongs to no parked handler changes nothing. *)
Lemma resume_nothing k fulfilled p :
  nth_error (parked p) k = None ->
  step br file (ResumeSettled k fulfilled) p = p.
Proof.
  intros Hk. apply nth_error_None in Hk. unfold parked in Hk.
  rewrite length_app, length_map in Hk.
  unfold step.
  assert (Hd : nth_error (detached p) k = None) by (apply nth_error_None; lia).
  rewrite Hd. cbv zeta. unfold in_layer.
  destruct p as [on m [l |] g d]; cbn [layer detached balloonsOn muted page] in *;
    [| reflexivity].
  assert (Ha : nth_error (awaiting l) (k - length d) = None) by (apply nth_error_None; lia).
  rewrite Ha. reflexivity.
Qed.

(** What the continuation of a handler without a layer leaves of the page. *)
Lemma resume_detached_spec k l i fulfilled p :
  let p2 := resume_detached br file k l i fulfilled p in
  balloonsOn p2 = balloonsOn p /\ muted p2 = muted p /\ layer p2 = layer p
  /\ detached p2 = drop_nth k (detached p)
  /\ created (page p2) = created (page p)
  /\ exists t, log (page p2) = log (page p) ++ t ++ [RemoveRequest i]
               /\ Forall synth_effect t.
Proof.
  cbv zeta. unfold resume_detached. cbn [balloonsOn muted layer detached page].
  destruct (onClick_resumed_spec br file i fulfilled (mkWorld l (page p)))
    as (_ & (_ & _ & _ & F) & _ & _ & t & Ht & Ft).
  cbn [lay glob] in *. repeat split; try assumption. exists t. split; assumption.
Qed.

End Removal.

(** C7. [remove(id)] is the filter [x.id !== id]: it keeps exactly the
    balloons with another id, in their order; it changes nothing when no
    balloon has that id; a second call changes nothing.  On the page, both
    removal paths go through it: natural completion removes the balloon (one
    balloon, on a reachable page where it is live), and once the id is gone
    -- whichever of completion or pop removed it -- a completion, a click or
    the late resumption of a parked click for that id leaves the live set as
    it is. *)
Theorem removal_is_idempotent br file es i b :
  let p := run br file es (Portfolio_init br file) in
  (forall y, In y (remove_id i b) <-> In y b /\ id y <> i)
  /\ (~ In i (ids b) -> remove_id i b = b)
  /\ remove_id i (remove_id i b) = remove_id i b
  /\ live (step br file (AnimationComplete i) p) = remove_id i (live p)
  /\ (In i (ids (live p)) ->
      S (length (live (step br file (AnimationComplete i) p))) = length (live p))
  /\ (~ In i (ids (live p)) ->
      live (step br file (AnimationComplete i) p) = live p
      /\ live (step br file (Click i) p) = live p
      /\ forall k fulfilled, nth_error (parked p) k = Some i ->
                             live (step br file (ResumeSettled k fulfilled) p) = live p).
Proof.
  cbv zeta. set (p := run br file es (Portfolio_init br file)).
  pose proof (page_ok_reachable br file es) as Hp. fold p in Hp.
  split; [intros y; apply remove_id_In |].
  split; [apply remove_id_absent |].
  split; [apply remove_id_idem |].
  split; [apply complete_on_page |].
  split.
  - intros Hin. rewrite complete_on_page. apply remove_id_length_present; [| exact Hin].
    unfold page_ok, live in *. destruct (layer p) as [l |]; [| constructor].
    destruct Hp as (_ & _ & _ & _ & _ & Hnd). exact Hnd.
  - intros Hout. split; [| split].
    + rewrite complete_on_page. apply remove_id_absent, Hout.
    + destruct (layer p) as [l |] eqn:Hl.
      * destruct (click_on_page br file i p l Hl) as (t & _ & _ & [(B & _) | (_ & B & _)]).
        -- rewrite B. apply remove_id_absent, Hout.
        -- exact B.
      * unfold step, in_layer. rewrite Hl. reflexivity.
    + intros k fulfilled Hk.
      destruct (resume_on_page br file k i fulfilled p Hk) as ([(_ & B) | (_ & B)] & _).
      * rewrite B. apply remove_id_absent, Hout.
      * unfold live. rewrite B. reflexivity.
Qed.

Lemma removal_is_idempotent_witness :
  (In 3 (ids (live (run desktop App_tsx [] (Portfolio_init desktop App_tsx))))
   /\ S (length (live (step desktop App_tsx (AnimationComplete 3)
                         (run desktop App_tsx [] (Portfolio_init desktop App_tsx)))))
      = length (live (run desktop App_tsx [] (Portfolio_init desktop App_tsx))))
  /\ (~ In 3 (ids (live (run desktop App_tsx [Click 3] (Portfolio_init desktop App_tsx))))
      /\ live (step desktop App_tsx (AnimationComplete 3)
                 (run desktop App_tsx [Click 3] (Portfolio_init desktop App_tsx)))
         = live (run desktop App_tsx [Click 3] (Portfolio_init desktop App_tsx))).
Proof.
  split.
  - assert (Hin : In 3 (ids (live (run desktop App_tsx [] (Portfolio_init desktop App_tsx)))))
      by (vm_compute; tauto).
    split; [exact Hin |].
    pose proof (removal_is_idempotent desktop App_tsx [] 3 []) as K.
    cbv zeta in K. destruct K as (_ & _ & _ & _ & K & _). exact (K Hin).
  - assert (Hout : ~ In 3 (ids (live (run desktop App_tsx [Click 3]
                                        (Portfolio_init desktop App_tsx)))))
      by (vm_compute; intuition discriminate).
    split; [exact Hout |].
    pose proof (removal_is_idempotent desktop App_tsx [Click 3] 3 []) as K.
    cbv zeta in K. destruct K as (_ & _ & _ & _ & _ & K).
    destruct (K Hout) as (K1 & _). exact K1.
Defined.

(** ** Popping *)




(** The same click seen through: the context is suspended, the handler is
    parked; when [resume()] is then rejected, the catch block runs and the
    balloon goes. *)
Example parked_click_removes_on_rejection :
  ids (live (run handheld App_tsx [Click 3; ResumeSettled 0 false]
               (Portfolio_init handheld App_tsx)))
  = [1; 2; 4; 5; 6; 7; 8; 9; 10; 11; 12]
  /\ log (page (run handheld App_tsx [Click 3; ResumeSettled 0 false]
                  (Portfolio_init handheld App_tsx)))
     = [StopPropagation; PopCalled; Audio new_AudioContext; Audio resume;
        Caught; RemoveRequest 3].
Proof. split; vm_compute; reflexivity. Qed.

(** A click parked in a layer that is then unmounted: when its promise is
    fulfilled the handler runs all the same -- it builds the graph (22 more
    Web Audio calls) and requests the removal -- although no layer is
    mounted. *)
Example parked_click_outlives_its_layer :
  parked (run phone App_tsx [Click 3; ToggleBalloons] (Portfolio_init phone App_tsx)) = [3]
  /\ audio_calls (page (run phone App_tsx [Click 3; ToggleBalloons]
                          (Portfolio_init phone App_tsx))) = 2
  /\ layer (run phone App_tsx [Click 3; ToggleBalloons; ResumeSettled 0 true]
              (Portfolio_init phone App_tsx)) = None
  /\ audio_calls (page (run phone App_tsx [Click 3; ToggleBalloons; ResumeSettled 0 true]
                          (Portfolio_init phone App_tsx))) = 24
  /\ last (log (page (run phone App_tsx [Click 3; ToggleBalloons; ResumeSettled 0 true]
                        (Portfolio_init phone App_tsx)))) Caught
     = RemoveRequest 3
  /\ parked (run phone App_tsx [Click 3; ToggleBalloons; ResumeSettled 0 true]
               (Portfolio_init phone App_tsx)) = [].
Proof. repeat split; vm_compute; reflexivity. Qed.

(** And when a new layer has been mounted in between, whose ids start at 1
    again: the late request of the old handler for balloon 3 does not remove
    the new balloon 3. *)
Example late_request_misses_the_new_layer :
  ids (live (run phone App_tsx [Click 3; ToggleBalloons; ToggleBalloons; ResumeSettled 0 true]
               (Portfolio_init phone App_tsx)))
  = seq 1 12.
Proof. vm_compute. reflexivity. Qed.



(** ** Disabling and re-enabling *)

(** What [BalloonsLayer] itself does when it is re-rendered with
    [enabled = false]: the cleanup stops the interval, the effect returns at
    [if (!enabled) return], and the balloons and the id counter stay. *)
Lemma layer_pauses_and_keeps br file m w :
  balloons (lay (snd (BalloonsLayer_update br file true m false m w))) = balloons (lay w)
  /\ idRef (lay (snd (BalloonsLayer_update br file true m false m w))) = idRef (lay w)
  /\ spawn (lay (snd (BalloonsLayer_update br file true m false m w))) = None.
Proof.
  unfold BalloonsLayer_update, spawn_cleanup, spawn_effect, bind, modify, ret.
  rewrite Bool.eqb_reflx. cbn. repeat split.
Qed.

(** And when it is re-rendered with [enabled = true] again: the burst of
    twelve is appended to whatever is live, without looking at the cap.  The
    bound of 36 on the page rests on [Portfolio] mounting the layer empty. *)
Lemma layer_burst_is_unguarded br file m w :
  length (balloons (lay (snd (BalloonsLayer_update br file false m true m w))))
  = length (balloons (lay w)) + 12.
Proof.
  unfold BalloonsLayer_update, spawn_cleanup, spawn_effect, bind, modify, ret.
  rewrite Bool.eqb_reflx. cbn [Bool.eqb negb fst snd].
  match goal with
  | |- context [Array_from 12 _ ?W] =>
      destruct (Array_from_next_balloon br file 12 W) as (l & g & E & Hids & _)
  end.
  rewrite E. cbn. rewrite length_app, (ids_length l 12 _ Hids). reflexivity.
Qed.

(** C2, on the code. [Portfolio] renders the layer as
    [{balloonsOn && <BalloonsLayer ... />}]: on every reachable page where the
    balloons are on, turning them off unmounts the layer, and the live set is
    empty at once, whatever it held. *)
Theorem disabling_unmounts_the_layer br file es :
  let p := run br file es (Portfolio_init br file) in
  balloonsOn p = true ->
  layer (step br file ToggleBalloons p) = None
  /\ live (step br file ToggleBalloons p) = [].
Proof.
  cbv zeta. intros Hon. unfold step, commit, live. rewrite Hon. cbn [negb].
  destruct (layer (run br file es (Portfolio_init br file))); cbn; split; reflexivity.
Qed.

Lemma disabling_unmounts_the_layer_witness :
  (balloonsOn (run desktop App_tsx (map AnimationComplete (seq 1 7))
                 (Portfolio_init desktop App_tsx)) = true
   /\ ids (live (run desktop App_tsx (map AnimationComplete (seq 1 7))
                   (Portfolio_init desktop App_tsx))) = [8; 9; 10; 11; 12])
  /\ live (step desktop App_tsx ToggleBalloons
             (run desktop App_tsx (map AnimationComplete (seq 1 7))
                (Portfolio_init desktop App_tsx))) = [].
Proof.
  assert (Hon : balloonsOn (run desktop App_tsx (map AnimationComplete (seq 1 7))
                              (Portfolio_init desktop App_tsx)) = true)
    by (vm_compute; reflexivity).
  split; [split; [exact Hon | vm_compute; reflexivity] |].
  pose proof (disabling_unmounts_the_layer desktop App_tsx
                (map AnimationComplete (seq 1 7))) as K.
  cbv zeta in K. destruct (K Hon) as (_ & K2). exact K2.
Defined.

(** Live ids are pairwise distinct on every reachable page, and every new
    balloon gets an id above all live ones. *)
Lemma live_ids_distinct br file es :
  NoDup (ids (live (run br file es (Portfolio_init br file)))).
Proof.
  pose proof (page_ok_reachable br file es) as Hp. unfold page_ok, live in *.
  destruct (layer (run br file es (Portfolio_init br file))) as [l |]; [| constructor].
  destruct Hp as (_ & _ & _ & _ & _ & H). exact H.
Qed.

Lemma live_ids_below_counter br file es l :
  layer (run br file es (Portfolio_init br file)) = Some l ->
  Forall (fun b => id b < idRef l) (balloons l).
Proof.
  intros Hl. pose proof (page_ok_reachable br file es) as Hp. unfold page_ok in Hp.
  rewrite Hl in Hp. destruct Hp as (_ & _ & _ & _ & H & _). exact H.
Qed.

(** C6, on the code. Turning the balloons off and on again mounts a new
    layer, whose [idRef] starts at 1 again: of the 24 balloons built by then,
    the ids are 1..12 twice. *)
Theorem ids_restart_on_reenabling br file :
  ids (created (page (run br file [ToggleBalloons; ToggleBalloons]
                        (Portfolio_init br file))))
  = seq 1 12 ++ seq 1 12
  /\ ~ NoDup (ids (created (page (run br file [ToggleBalloons; ToggleBalloons]
                                    (Portfolio_init br file))))).
Proof.
  assert (E : ids (created (page (run br file [ToggleBalloons; ToggleBalloons]
                                    (Portfolio_init br file))))
              = seq 1 12 ++ seq 1 12) by (vm_compute; reflexivity).
  split; [exact E |].
  rewrite E. intros H. cbn in H.
  inversion H as [| ? ? Hin _]; subst. apply Hin. cbn. tauto.
Qed.

(** ** Muting *)

Lemma twin_ret {A} (a : A) : twin (ret a) (ret a).
Proof. intros w0 w1 H. split; [reflexivity | exact H]. Qed.

Lemma twin_throw {A} : twin (@throw A) (@throw A).
Proof. intros w0 w1 H. split; [reflexivity | exact H]. Qed.

Lemma twin_bind {A B} (m0 m1 : M A) (k0 k1 : A -> M B) :
  twin m0 m1 -> (forall a, twin (k0 a) (k1 a)) -> twin (bind m0 k0) (bind m1 k1).
Proof.
  intros Hm Hk w0 w1 H. unfold bind. destruct (Hm w0 w1 H) as (Hr & Hw).
  destruct (m0 w0) as [[a0 |] w0'], (m1 w1) as [[a1 |] w1']; cbn in Hr, Hw;
    try discriminate.
  - injection Hr as ->. apply Hk, Hw.
  - split; [reflexivity | exact Hw].
Qed.

Lemma twin_try_catch {A} (b0 b1 h0 h1 : M A) :
  twin b0 b1 -> twin h0 h1 -> twin (try_catch b0 h0) (try_catch b1 h1).
Proof.
  intros Hb Hh w0 w1 H. unfold try_catch. destruct (Hb w0 w1 H) as (Hr & Hw).
  destruct (b0 w0) as [[a0 |] w0'], (b1 w1) as [[a1 |] w1']; cbn in Hr, Hw;
    try discriminate.
  - split; [exact Hr | exact Hw].
  - apply Hh, Hw.
Qed.

Lemma twin_if {A} (c : bool) (m0 m1 n0 n1 : M A) :
  twin m0 m1 -> twin n0 n1 -> twin (if c then m0 else n0) (if c then m1 else n1).
Proof. destruct c; auto. Qed.

Lemma twin_gets {A} (f : World -> A) :
  (forall w0 w1, same_but_volume w0 w1 -> f w0 = f w1) -> twin (gets f) (gets f).
Proof. intros Hf w0 w1 H. cbn. split; [f_equal; apply Hf, H | exact H]. Qed.

(** Reading the volume cell is the one place where the two runs differ. *)
Lemma twin_read_volume {B} (k0 k1 : Q -> M B) :
  (forall v0 v1, twin (k0 v0) (k1 v1)) ->
  twin (bind (gets (fun w => volRef (lay w))) k0)
       (bind (gets (fun w => volRef (lay w))) k1).
Proof. intros Hk w0 w1 H. unfold bind, gets. apply Hk, H. Qed.

Lemma twin_modify f :
  (forall w0 w1, same_but_volume w0 w1 -> same_but_volume (f w0) (f w1)) ->
  twin (modify f) (modify f).
Proof. intros Hf w0 w1 H. split; [reflexivity | apply Hf, H]. Qed.

Lemma twin_emit e0 e1 : shape e0 = shape e1 -> twin (emit e0) (emit e1).
Proof.
  intros He w0 w1 (H1 & H2 & H3 & H4 & H5 & H6 & H7 & H8 & H9).
  split; [reflexivity |]. unfold same_but_volume. cbn.
  repeat split; try assumption.
  rewrite !map_app, H9. cbn. rewrite He. reflexivity.
Qed.

Lemma twin_call br op0 op1 :
  shape (Audio op0) = shape (Audio op1) -> twin (call br op0) (call br op1).
Proof.
  intros He w0 w1 (H1 & H2 & H3 & H4 & H5 & H6 & H7 & H8 & H9).
  unfold call. rewrite H7.
  destruct (throws br (audio_calls (glob w0))); cbn.
  - split; [reflexivity |]. unfold same_but_volume. cbn.
    repeat split; try assumption. rewrite H7. reflexivity.
  - split; [reflexivity |]. unfold same_but_volume. cbn.
    repeat split; try assumption; [rewrite H7; reflexivity |].
    rewrite !map_app, H9. cbn [map]. rewrite He. reflexivity.
Qed.

Lemma twin_count_random n :
  twin (modify (with_glob (count_random n))) (modify (with_glob (count_random n))).
Proof.
  apply twin_modify. intros w0 w1 (H1 & H2 & H3 & H4 & H5 & H6 & H7 & H8 & H9).
  unfold same_but_volume, with_glob, count_random.
  cbn [lay glob random_calls audio_calls log created].
  repeat split; try assumption. rewrite H6. reflexivity.
Qed.

Lemma twin_set_ctxRef c :
  twin (modify (with_lay (set_ctxRef c))) (modify (with_lay (set_ctxRef c))).
Proof.
  apply twin_modify. intros w0 w1 (H1 & H2 & H3 & H4 & H5 & H6 & H7 & H8 & H9).
  unfold same_but_volume. cbn. repeat split; assumption.
Qed.

Lemma twin_filter i :
  twin (modify (with_lay (fun l => set_balloons (remove_id i (balloons l)) l)))
       (modify (with_lay (fun l => set_balloons (remove_id i (balloons l)) l))).
Proof.
  apply twin_modify. intros w0 w1 (H1 & H2 & H3 & H4 & H5 & H6 & H7 & H8 & H9).
  unfold same_but_volume. cbn [lay glob with_lay set_balloons balloons idRef spawn ctxRef awaiting].
  repeat split; try assumption. rewrite H1. reflexivity.
Qed.

Lemma twin_park i :
  twin (modify (with_lay (fun l => set_awaiting (awaiting l ++ [i]) l)))
       (modify (with_lay (fun l => set_awaiting (awaiting l ++ [i]) l))).
Proof.
  apply twin_modify. intros w0 w1 (H1 & H2 & H3 & H4 & H5 & H6 & H7 & H8 & H9).
  unfold same_but_volume. cbn [lay glob with_lay set_awaiting balloons idRef spawn ctxRef awaiting].
  repeat split; try assumption. rewrite H5. reflexivity.
Qed.

Ltac twin_step :=
  lazymatch goal with
  | |- twin (bind (gets (fun w => volRef (lay w))) _) _ =>
      apply twin_read_volume; intros ? ?
  | |- twin (bind _ _) _ => apply twin_bind; [| intros ?]
  | |- twin (try_catch _ _) _ => apply twin_try_catch
  | |- twin (if _ then _ else _) _ => apply twin_if
  | |- twin (call _ _) _ => apply twin_call; reflexivity
  | |- twin (emit _) _ => apply twin_emit; reflexivity
  | |- twin (ret _) _ => apply twin_ret
  | |- twin throw _ => apply twin_throw
  | |- twin (gets _) _ =>
      apply twin_gets; intros ? ? (? & ? & ? & ? & ? & ? & ? & ? & ?); congruence
  | |- twin (modify (with_glob (count_random _))) _ => apply twin_count_random
  | |- twin (modify (with_lay (set_ctxRef _))) _ => apply twin_set_ctxRef
  | |- twin (modify (with_lay (fun l => set_balloons _ l))) _ => apply twin_filter
  | |- twin (modify (with_lay (fun l => set_awaiting _ l))) _ => apply twin_park
  end.

Ltac twin_steps := repeat twin_step.

Section MutedFacts.

Variable br : Browser.
Variable file : source_file.

Lemma twin_build_graph : twin (build_graph br file) (build_graph br file).
Proof. unfold build_graph. destruct file; twin_steps. Qed.

Lemma twin_pop : twin (pop br file) (pop br file).
Proof.
  pose proof twin_build_graph as Hg. unfold pop, pop_body, acquire_ctx.
  destruct file; twin_steps; exact Hg.
Qed.

Lemma twin_pop_resumed fulfilled :
  twin (pop_resumed br file fulfilled) (pop_resumed br file fulfilled).
Proof. pose proof twin_build_graph as Hg. unfold pop_resumed. twin_steps. exact Hg. Qed.

Lemma twin_remove i : twin (remove i) (remove i).
Proof. unfold remove. twin_steps. Qed.

Lemma twin_onClick i : twin (onClick br file i) (onClick br file i).
Proof.
  pose proof twin_pop as Hp. pose proof (twin_remove i) as Hr. unfold onClick.
  destruct file; twin_steps; try assumption;
    match goal with s : Status |- _ => destruct s end; twin_steps; assumption.
Qed.

Lemma twin_onClick_resumed i fulfilled :
  twin (onClick_resumed br file i fulfilled) (onClick_resumed br file i fulfilled).
Proof.
  pose proof (twin_pop_resumed fulfilled) as Hp. pose proof (twin_remove i) as Hr.
  unfold onClick_resumed. twin_steps; assumption.
Qed.

Lemma same_but_volume_set v w : same_but_volume w (with_lay (set_volRef v) w).
Proof. repeat split. Qed.

End MutedFacts.

Lemma muted_run_refl w : muted_run w w.
Proof.
  intros H. split; [exact H |]. exists []. split; [symmetry; apply app_nil_r | constructor].
Qed.

Lemma muted_run_trans a b c : muted_run a b -> muted_run b c -> muted_run a c.
Proof.
  intros Hab Hbc Ha. destruct (Hab Ha) as (Hb & t & Ht & Ft).
  destruct (Hbc Hb) as (Hc & u & Hu & Fu). split; [exact Hc |].
  exists (t ++ u). split.
  - rewrite Hu, Ht. symmetry. apply app_assoc.
  - apply Forall_app. split; assumption.
Qed.

Lemma muted_emit e : quiet_gain e -> keeps muted_run (emit e).
Proof.
  intros He w Hw. split; [exact Hw |].
  exists [e]. split; [reflexivity | repeat constructor; exact He].
Qed.

Lemma muted_call br op : quiet_gain (Audio op) -> keeps muted_run (call br op).
Proof.
  intros He w Hw. unfold call.
  destruct (throws br (audio_calls (glob w))); cbn; (split; [exact Hw |]).
  - exists []. split; [symmetry; apply app_nil_r | constructor].
  - exists [Audio op]. split; [reflexivity | repeat constructor; exact He].
Qed.

(** A write that touches neither the volume cell nor the log. *)
Lemma muted_modify f :
  (forall w, volRef (lay (f w)) = volRef (lay w) /\ log (glob (f w)) = log (glob w)) ->
  keeps muted_run (modify f).
Proof.
  intros Hf w Hw. destruct (Hf w) as (Hv & Hl). cbn. split; [congruence |].
  exists []. split; [rewrite Hl; symmetry; apply app_nil_r | constructor].
Qed.

Lemma muted_read_volume {B} (k : Q -> M B) :
  keeps muted_run (k 0%Q) ->
  keeps muted_run (bind (gets (fun w => volRef (lay w))) k).
Proof.
  intros Hk w Hw. unfold bind, gets. cbv beta iota. rewrite Hw. apply Hk, Hw.
Qed.

Ltac muted_step :=
  lazymatch goal with
  | |- keeps muted_run (bind (gets (fun w => volRef (lay w))) _) =>
      apply muted_read_volume
  | |- keeps muted_run (bind _ _) =>
      apply keeps_bind; [exact muted_run_trans | | intros ?]
  | |- keeps muted_run (try_catch _ _) =>
      apply keeps_try_catch; [exact muted_run_trans | |]
  | |- keeps muted_run (if _ then _ else _) => apply keeps_if
  | |- keeps muted_run (call _ _) =>
      apply muted_call; first [exact I | vm_compute; discriminate]
  | |- keeps muted_run (emit _) => apply muted_emit; exact I
  | |- keeps muted_run (ret _) => apply keeps_ret; exact muted_run_refl
  | |- keeps muted_run throw => apply keeps_throw; exact muted_run_refl
  | |- keeps muted_run (gets _) => apply keeps_gets; exact muted_run_refl
  | |- keeps muted_run (modify _) => apply muted_modify; intros ?; split; reflexivity
  end.

Section QuietFacts.

Variable br : Browser.
Variable file : source_file.

Lemma muted_build_graph : keeps muted_run (build_graph br file).
Proof. unfold build_graph. destruct file; repeat muted_step. Qed.

Lemma muted_pop : keeps muted_run (pop br file).
Proof.
  pose proof muted_build_graph as Hg. unfold pop, pop_body, acquire_ctx.
  destruct file; repeat muted_step; exact Hg.
Qed.

Lemma muted_pop_resumed fulfilled : keeps muted_run (pop_resumed br file fulfilled).
Proof. pose proof muted_build_graph as Hg. unfold pop_resumed. repeat muted_step. exact Hg. Qed.

Lemma muted_remove i : keeps muted_run (remove i).
Proof. unfold remove. repeat muted_step. Qed.

Lemma muted_onClick i : keeps muted_run (onClick br file i).
Proof.
  pose proof muted_pop as Hp. pose proof (muted_remove i) as Hr. unfold onClick.
  destruct file; repeat muted_step; try assumption;
    match goal with s : Status |- _ => destruct s end; repeat muted_step; assumption.
Qed.

Lemma muted_onClick_resumed i fulfilled :
  keeps muted_run (onClick_resumed br file i fulfilled).
Proof.
  pose proof (muted_pop_resumed fulfilled) as Hp. pose proof (muted_remove i) as Hr.
  unfold onClick_resumed. repeat muted_step; assumption.
Qed.

End QuietFacts.

(** A Web Audio call that does not throw. *)
Lemma call_returns br op w :
  throws br (audio_calls (glob w)) = false ->
  call br op w
  = (Val tt, mkWorld (lay w)
               (mkGlobals (random_calls (glob w)) (S (audio_calls (glob w)))
                  (log (glob w) ++ [Audio op]) (created (glob w)))).
Proof. intros H. unfold call. rewrite H. reflexivity. Qed.

(** When none of its calls throws, the construction makes all of them. *)
Lemma build_graph_calls br file w :
  (forall n, audio_calls (glob w) <= n -> throws br n = false) ->
  build_graph br file w
  = (Val tt,
     mkWorld (lay w)
       (mkGlobals (2048 + random_calls (glob w)) (22 + audio_calls (glob w))
          (log (glob w)
           ++ map Audio (graph_calls br file (volRef (lay w))
                           (currentTime br (audio_calls (glob w)))))
          (created (glob w)))).
Proof.
  intros Ht. destruct w as [l [r a lg c]].
  cbn [lay glob audio_calls random_calls log created] in *.
  unfold build_graph, bind, gets, modify, emit.
  cbn [lay glob audio_calls].
  repeat (rewrite call_returns
            by (cbn [glob audio_calls with_glob count_random add_log]; apply Ht; lia);
          unfold emit, modify; cbv beta iota;
          cbn [lay glob audio_calls random_calls log created with_glob count_random add_log]).
  unfold graph_calls. cbn [map]. rewrite <- !app_assoc. cbn [app]. reflexivity.
Qed.

Ltac run_calls Ht Hs :=
  repeat (unfold remove, bind, emit, modify; cbv beta iota;
          cbn [lay glob audio_calls random_calls log created with_glob with_lay add_log
               set_ctxRef set_balloons ctxRef volRef balloons idRef spawn awaiting fst snd];
          first [rewrite call_returns by (cbn; apply Ht; lia)
                | rewrite build_graph_calls by (cbn; intros; apply Ht; lia)
                | rewrite (Hs eq_refl)]);
  unfold remove, bind, emit, modify; cbv beta iota;
  cbn [lay glob audio_calls random_calls log created with_glob with_lay add_log
       set_ctxRef set_balloons ctxRef volRef balloons idRef spawn awaiting fst snd].

(** The whole of a click that does not have to wait and whose calls do not
    throw, call by call. *)
Lemma onClick_builds_graph br file i w :
  (forall n, audio_calls (glob w) <= n -> throws br n = false) ->
  (file = App_tsx ->
   suspended br (audio_calls (glob w) + (if ctxRef (lay w) then 0 else 1)) = false) ->
  log (glob (snd (onClick br file i w)))
  = log (glob w) ++ [StopPropagation; PopCalled]
    ++ (if ctxRef (lay w) then [] else [Audio new_AudioContext])
    ++ map Audio (graph_calls br file (volRef (lay w))
                    (currentTime br (audio_calls (glob w)
                                     + (if ctxRef (lay w) then 0 else 1))))
    ++ [RemoveRequest i].
Proof.
  intros Ht Hs. destruct w as [l [r a lg c]].
  cbn [lay glob audio_calls random_calls log created] in *.
  assert (Hs' : file = App_tsx -> suspended br (if ctxRef l then a else S a) = false).
  { intros Hf. specialize (Hs Hf). destruct (ctxRef l);
      [rewrite Nat.add_0_r in Hs | rewrite Nat.add_1_r in Hs]; exact Hs. }
  replace (a + (if ctxRef l then 0 else 1)) with (if ctxRef l then a else S a)
    by (destruct (ctxRef l); lia).
  clear Hs.
  unfold onClick, pop, pop_body, acquire_ctx, try_catch, bind, gets, ret, emit, modify.
  cbn [lay glob audio_calls random_calls log created with_glob with_lay add_log fst snd].
  destruct l as [bs n sp cx vr aw]. cbn [ctxRef volRef] in *.
  destruct cx; destruct file; run_calls Ht Hs'; rewrite <- ?app_assoc; reflexivity.
Qed.

(** The same for a parked click whose promise is fulfilled. *)
Lemma onClick_resumed_builds_graph br file i w :
  (forall n, audio_calls (glob w) <= n -> throws br n = false) ->
  log (glob (snd (onClick_resumed br file i true w)))
  = log (glob w)
    ++ map Audio (graph_calls br file (volRef (lay w))
                    (currentTime br (audio_calls (glob w))))
    ++ [RemoveRequest i].
Proof.
  intros Ht. destruct w as [l [r a lg c]].
  cbn [lay glob audio_calls random_calls log created] in *.
  assert (Hs' : file = file -> true = true) by reflexivity.
  unfold onClick_resumed, pop_resumed, try_catch, bind, gets, ret, emit, modify.
  run_calls Ht Hs'. rewrite <- ?app_assoc. reflexivity.
Qed.

(** C8. On every reachable page where the pops are muted, the volume cell of
    the layer is 0; a click still calls the synthesizer exactly once; the
    calls it logs are, call for call and in the same order, those the same
    click makes at volume 0.06 -- only the numeric values of the two gain
    settings differ -- and so are those of a resumed handler; the outcome for
    the live set is the same; and every gain value set is at most 0.0001
    (0.0001 for the output gain in App.tsx, 0 otherwise).  The graph is built
    all the same: when none of the click's Web Audio calls throws and the
    click does not have to wait for a suspended context, the calls logged
    are the whole construction of [useAudioPop] -- the output gain node with
    its gain set from volume 0, the oscillator, the noise buffer and its
    source, the noise gain set to 0, the four connections, the two starts
    and the two stops -- followed by the removal request; and so are those
    of a parked click once its promise is fulfilled. *)
Theorem muted_pop_builds_the_same_graph br file es i :
  let p := run br file es (Portfolio_init br file) in
  muted p = true ->
  forall l, layer p = Some l ->
    let quiet := mkWorld l (page p) in
    let loud := with_lay (set_volRef (volume false)) quiet in
    volRef l = 0%Q
    /\ pops (log (page (step br file (Click i) p))) = S (pops (log (page p)))
    /\ log (page (step br file (Click i) p)) = log (glob (snd (onClick br file i quiet)))
    /\ map shape (log (glob (snd (onClick br file i loud))))
       = map shape (log (glob (snd (onClick br file i quiet))))
    /\ balloons (lay (snd (onClick br file i loud)))
       = balloons (lay (snd (onClick br file i quiet)))
    /\ (exists t, log (glob (snd (onClick br file i quiet))) = log (page p) ++ t
                  /\ Forall quiet_gain t)
    /\ (forall fulfilled,
        map shape (log (glob (snd (onClick_resumed br file i fulfilled loud))))
        = map shape (log (glob (snd (onClick_resumed br file i fulfilled quiet))))
        /\ exists t, log (glob (snd (onClick_resumed br file i fulfilled quiet)))
                     = log (page p) ++ t
                     /\ Forall quiet_gain t)
    /\ ((forall n, audio_calls (page p) <= n -> throws br n = false) ->
        (file = App_tsx ->
         suspended br (audio_calls (page p) + (if ctxRef l then 0 else 1)) = false) ->
        log (page (step br file (Click i) p))
        = log (page p) ++ [StopPropagation; PopCalled]
          ++ (if ctxRef l then [] else [Audio new_AudioContext])
          ++ map Audio (graph_calls br file 0
                          (currentTime br (audio_calls (page p)
                                           + (if ctxRef l then 0 else 1))))
          ++ [RemoveRequest i])
    /\ ((forall n, audio_calls (page p) <= n -> throws br n = false) ->
        log (glob (snd (onClick_resumed br file i true quiet)))
        = log (page p)
          ++ map Audio (graph_calls br file 0 (currentTime br (audio_calls (page p))))
          ++ [RemoveRequest i]).
Proof.
  cbv zeta. intros Hm l Hl.
  pose proof (page_ok_reachable br file es) as Hp. unfold page_ok in Hp.
  rewrite Hl, Hm in Hp. destruct Hp as (_ & _ & _ & Hv & _). cbn in Hv.
  set (quiet := mkWorld l (page (run br file es (Portfolio_init br file)))).
  pose proof (same_but_volume_set (volume false) quiet) as Hs.
  assert (Hstep : log (page (step br file (Click i) (run br file es (Portfolio_init br file))))
                  = log (glob (snd (onClick br file i quiet)))).
  { unfold step, in_layer; rewrite Hl; reflexivity. }
  split; [exact Hv |].
  split; [apply (click_counts_one_pop br file i _ l Hl) |].
  split; [exact Hstep |].
  destruct (twin_onClick br file i _ _ Hs) as (_ & (B & _ & _ & _ & _ & _ & _ & _ & L)).
  split; [exact L |]. split; [exact B |].
  split; [apply (muted_onClick br file i quiet Hv) |].
  split; [| split].
  - intros fulfilled.
    destruct (twin_onClick_resumed br file i fulfilled _ _ Hs)
      as (_ & (_ & _ & _ & _ & _ & _ & _ & _ & L')).
    split; [exact L' |].
    apply (muted_onClick_resumed br file i fulfilled quiet Hv).
  - intros Ht Hsus. rewrite Hstep.
    rewrite (onClick_builds_graph br file i quiet Ht Hsus).
    unfold quiet. cbn [lay glob]. rewrite Hv. reflexivity.
  - intros Ht.
    rewrite (onClick_resumed_builds_graph br file i quiet Ht).
    unfold quiet. cbn [lay glob]. rewrite Hv. reflexivity.
Qed.

Lemma muted_pop_builds_the_same_graph_witness :
  muted (run desktop App_tsx [ToggleMute] (Portfolio_init desktop App_tsx)) = true
  /\ exists l,
      layer (run desktop App_tsx [ToggleMute] (Portfolio_init desktop App_tsx)) = Some l
      /\ volRef l = 0%Q
      /\ pops (log (page (step desktop App_tsx (Click 3)
                            (run desktop App_tsx [ToggleMute]
                               (Portfolio_init desktop App_tsx)))))
         = S (pops (log (page (run desktop App_tsx [ToggleMute]
                                 (Portfolio_init desktop App_tsx)))))
      /\ log (page (step desktop App_tsx (Click 3)
                      (run desktop App_tsx [ToggleMute] (Portfolio_init desktop App_tsx))))
         = log (page (run desktop App_tsx [ToggleMute] (Portfolio_init desktop App_tsx)))
           ++ [StopPropagation; PopCalled]
           ++ (if ctxRef l then [] else [Audio new_AudioContext])
           ++ map Audio
                (graph_calls desktop App_tsx 0
                   (currentTime desktop
                      (audio_calls (page (run desktop App_tsx [ToggleMute]
                                            (Portfolio_init desktop App_tsx)))
                       + (if ctxRef l then 0 else 1))))
           ++ [RemoveRequest 3].
Proof.
  assert (Hm : muted (run desktop App_tsx [ToggleMute] (Portfolio_init desktop App_tsx)) = true)
    by (vm_compute; reflexivity).
  split; [exact Hm |].
  destruct (layer (run desktop App_tsx [ToggleMute] (Portfolio_init desktop App_tsx)))
    as [l |] eqn:Hl; [| vm_compute in Hl; discriminate].
  exists l. split; [reflexivity |].
  pose proof (muted_pop_builds_the_same_graph desktop App_tsx [ToggleMute] 3) as K.
  cbv zeta in K. destruct (K Hm l Hl) as (K1 & K2 & _ & _ & _ & _ & _ & K3 & _).
  split; [exact K1 |]. split; [exact K2 |].
  apply K3; intros; reflexivity.
Defined.

(** A muted click where every audio call succeeds: the whole graph is built,
    the output gain starts at 0.0001 and the noise gain at 0. *)
Example muted_click_on_desktop :
  log (page (run desktop App_tsx [ToggleMute; Click 3] (Portfolio_init desktop App_tsx)))
  = [StopPropagation; PopCalled; Audio new_AudioContext;
     Audio (createGain gain);
     Audio (setValueAtTime gain_gain 0.0001 1);
     Audio (exponentialRampToValueAtTime gain_gain 0.0001 (1 + 0.12));
     Audio createOscillator; Audio set_type_triangle;
     Audio (setValueAtTime osc_frequency 240 1);
     Audio (exponentialRampToValueAtTime osc_frequency 60 (1 + 0.12));
     Audio (createBuffer 1 2048 48000); Audio (getChannelData 0);
     Audio (fill_data 2048); Audio createBufferSource; Audio set_buffer;
     Audio (createGain noiseGain);
     Audio (setValueAtTime noiseGain_gain (0 * 0.4) 1);
     Audio (exponentialRampToValueAtTime noiseGain_gain 0.0001 (1 + 0.05));
     Audio (connect osc gain); Audio (connect noise noiseGain);
     Audio (connect noiseGain gain); Audio (connect gain destination);
     Audio (start osc 1); Audio (stop osc (1 + 0.13));
     Audio (start noise 1); Audio (stop noise (1 + 0.06));
     RemoveRequest 3]%Q.
Proof. vm_compute. reflexivity. Qed.

(** * Further properties of the balloon code *)

(** ** Where live balloons come from *)

Lemma randomBalloon_ranges br file idSeed w :
  unit_draws br ->
  exists b,
    randomBalloon br file idSeed w = (Val b, with_glob (count_random 5) w)
    /\ id b = idSeed /\ factory_ranges b.
Proof.
  intros Hr.
  unfold randomBalloon, bind, ret, Math_random, factory_ranges.
  eexists. split; [reflexivity |]. cbn [id size x hue floatSec sway].
  cbn [with_glob glob count_random random_calls Nat.add].
  set (c := random_calls (glob w)).
  pose proof (Hr c) as [? ?]. pose proof (Hr (S c)) as [? ?].
  pose proof (Hr (S (S c))) as [? ?]. pose proof (Hr (S (S (S c)))) as [? ?].
  pose proof (Hr (S (S (S (S c))))) as [? ?].
  repeat split; try (apply hue_range; assumption); destruct file; lra.
Qed.

Lemma next_balloon_ranges br file w :
  unit_draws br ->
  exists b,
    next_balloon br file w
    = (Val b, mkWorld (set_idRef (S (idRef (lay w))) (lay w))
                      (add_created b (count_random 5 (glob w))))
    /\ factory_ranges b.
Proof.
  intros Hr. unfold next_balloon, bind, gets, modify. cbv beta iota.
  destruct (randomBalloon_ranges br file (idRef (lay w))
              (with_lay (set_idRef (S (idRef (lay w)))) w) Hr) as (b & E & _ & Hb).
  rewrite E. exists b. split; [reflexivity | exact Hb].
Qed.

(** Every balloon built so far is in the factory's ranges. *)
Lemma Array_from_ranges br file n w :
  unit_draws br ->
  Forall factory_ranges (created (glob w)) ->
  Forall factory_ranges (created (glob (snd (Array_from n (next_balloon br file) w)))).
Proof.
  intros Hr. revert w. induction n as [| n IH]; intros w Hw; [exact Hw |].
  cbn [Array_from]. unfold bind at 1.
  destruct (next_balloon_ranges br file w Hr) as (b & E & Hb). rewrite E.
  unfold bind at 1.
  match goal with
  | |- context [Array_from n _ ?W] =>
      specialize (IH W); destruct (Array_from n (next_balloon br file) W) as [[l |] w1]
  end; cbn [snd] in *; apply IH; cbn [glob add_created created];
    (apply Forall_app; split; [exact Hw | constructor; [exact Hb | constructor]]).
Qed.

Section Provenance.

Variable br : Browser.
Variable file : source_file.

(** The continuation of a handler whose layer is gone builds no balloon. *)
Lemma created_resume_detached (P : list Balloon -> Prop) k l i fulfilled p :
  P (created (page p)) ->
  P (created (page (resume_detached br file k l i fulfilled p))).
Proof.
  intros H. unfold resume_detached. cbn [page].
  destruct (onClick_resumed_spec br file i fulfilled (mkWorld l (page p)))
    as (_ & (_ & _ & _ & F) & _).
  rewrite F. exact H.
Qed.

(** The balloons of the page's log of built balloons stay in range, event
    after event. *)
Lemma created_in_ranges_step e p :
  unit_draws br -> page_ok p ->
  Forall factory_ranges (created (page p)) ->
  Forall factory_ranges (created (page (step br file e p))).
Proof.
  intros Hr Hp Hc. unfold page_ok in Hp.
  destruct p as [on m [l |] g d]; cbn [layer balloonsOn muted page] in *.
  - destruct Hp as [-> Hl].
    destruct e as [| | | i | i | k fulfilled]; unfold step.
    + exact Hc.
    + unfold commit, BalloonsLayer_update, bind, modify, ret. cbn.
      destruct m; cbn; exact Hc.
    + unfold in_layer. cbn [layer balloonsOn muted page].
      destruct Hl as (_ & H2 & _). rewrite H2.
      unfold spawn_tick, bind, gets, modify. cbv beta iota. cbn [lay glob].
      destruct (35 <? length (balloons l)); [exact Hc |].
      destruct (next_balloon_ranges br file (mkWorld l g) Hr) as (b & E & Hb).
      rewrite E. cbn. apply Forall_app. split; [exact Hc | constructor; [exact Hb | constructor]].
    + unfold in_layer, onAnimationComplete. cbn [layer balloonsOn muted page].
      rewrite remove_eq. exact Hc.
    + unfold in_layer. cbn [layer balloonsOn muted page].
      destruct (onClick_spec br file i (mkWorld l g)) as (_ & (_ & _ & _ & F) & _).
      cbn [page]. rewrite F. exact Hc.
    + cbn [detached].
      destruct (nth_error d k) as [[l' j] |]; [apply created_resume_detached, Hc |].
      cbv zeta. unfold in_layer. cbn [layer balloonsOn muted page].
      destruct (nth_error (awaiting l) _) as [i |]; [| exact Hc].
      unfold bind, modify. cbv beta iota.
      match goal with
      | |- context [onClick_resumed br file i fulfilled ?W] =>
          destruct (onClick_resumed_spec br file i fulfilled W) as (_ & (_ & _ & _ & F) & _)
      end.
      cbn [page]. rewrite F. exact Hc.
  - subst on.
    destruct e as [| | | i | i | k fulfilled]; unfold step; try exact Hc.
    + unfold commit, BalloonsLayer_mount, spawn_effect, bind, modify.
      cbn [negb layer balloonsOn muted page fst snd].
      match goal with
      | |- context [Array_from 12 _ ?W] =>
          pose proof (Array_from_ranges br file 12 W Hr Hc) as Ha;
          destruct (Array_from 12 (next_balloon br file) W) as [[bs |] w1]
      end; cbn in *; exact Ha.
    + cbn [detached].
      destruct (nth_error d k) as [[l' j] |]; [apply created_resume_detached, Hc | exact Hc].
Qed.

Lemma created_in_ranges es :
  unit_draws br ->
  Forall factory_ranges (created (page (run br file es (Portfolio_init br file)))).
Proof.
  intros Hr.
  assert (H0 : Forall factory_ranges (created (page (Portfolio_init br file)))).
  { unfold Portfolio_init, commit, BalloonsLayer_mount, spawn_effect, bind, modify.
    cbn [negb layer balloonsOn muted page fst snd].
    match goal with
    | |- context [Array_from 12 _ ?W] =>
        pose proof (Array_from_ranges br file 12 W Hr (Forall_nil _)) as Ha;
        destruct (Array_from 12 (next_balloon br file) W) as [[bs |] w1]
    end; cbn in *; exact Ha. }
  pose proof (page_ok_init br file) as Hp0.
  revert H0 Hp0. generalize (Portfolio_init br file).
  induction es as [| e es IH]; intros p Hc Hp; [exact Hc |].
  cbn [run]. apply IH; [apply created_in_ranges_step; assumption | apply page_ok_step, Hp].
Qed.

(** Every live balloon is one the factory built, as it built it. *)
Lemma live_from_factory_step e p :
  page_ok p ->
  incl (live p) (created (page p)) ->
  incl (live (step br file e p)) (created (page (step br file e p))).
Proof.
  intros Hp Hc. unfold page_ok in Hp. unfold live in *.
  destruct p as [on m [l |] g d]; cbn [layer balloonsOn muted page] in *.
  - destruct Hp as [-> Hl].
    destruct e as [| | | i | i | k fulfilled]; unfold step.
    + cbn. intros b [].
    + unfold commit, BalloonsLayer_update, bind, modify, ret. cbn.
      destruct m; cbn; exact Hc.
    + unfold in_layer. cbn [layer balloonsOn muted page].
      destruct Hl as (_ & H2 & _). rewrite H2.
      pose proof (spawn_tick_spec br file (mkWorld l g)) as Ht. cbn [lay glob] in Ht.
      destruct (length (balloons l) <=? 35).
      * destruct Ht as (n & E & _). rewrite E. cbn.
        apply incl_app; [apply incl_appl, Hc | apply incl_appr, incl_refl].
      * rewrite Ht. cbn. exact Hc.
    + unfold in_layer, onAnimationComplete. cbn [layer balloonsOn muted page].
      rewrite remove_eq. cbn. intros b Hb. apply Hc. apply remove_id_In in Hb. tauto.
    + unfold in_layer. cbn [layer balloonsOn muted page].
      destruct (onClick_spec br file i (mkWorld l g)) as (_ & (_ & _ & _ & F) & Hk).
      cbn [page layer]. rewrite F. cbn [glob].
      destruct Hk as [(B & _) | (_ & B & _)]; rewrite B; cbn [lay]; [| exact Hc].
      intros b Hb. apply Hc. apply remove_id_In in Hb. tauto.
    + cbn [detached].
      destruct (nth_error d k) as [[l' j] |];
        [apply (created_resume_detached (incl (balloons l))); exact Hc |].
      cbv zeta. unfold in_layer. cbn [layer balloonsOn muted page].
      destruct (nth_error (awaiting l) _) as [i |]; [| exact Hc].
      unfold bind, modify. cbv beta iota.
      match goal with
      | |- context [onClick_resumed br file i fulfilled ?W] =>
          destruct (onClick_resumed_spec br file i fulfilled W)
            as (_ & (_ & _ & _ & F) & B & _)
      end.
      cbn [page layer]. rewrite F, B.
      cbn [lay glob with_lay set_awaiting balloons].
      intros b Hb. apply Hc. apply remove_id_In in Hb. tauto.
  - subst on.
    destruct e as [| | | i | i | k fulfilled]; unfold step;
      [| unfold commit; cbn; exact Hc
       | unfold in_layer; cbn [layer]; exact Hc .. |].
    + unfold commit. cbn [negb layer balloonsOn muted page].
      destruct (mount_spec br file m g) as (bs & g' & E & _ & Hcr & _).
      rewrite E. cbn. rewrite Hcr. apply incl_appr, incl_refl.
    + cbn [detached].
      destruct (nth_error d k) as [[l' j] |];
        [intros b [] | unfold in_layer; cbn [layer]; exact Hc].
Qed.

Lemma live_from_factory es :
  incl (live (run br file es (Portfolio_init br file)))
       (created (page (run br file es (Portfolio_init br file)))).
Proof.
  assert (H0 : incl (live (Portfolio_init br file)) (created (page (Portfolio_init br file)))).
  { unfold Portfolio_init, commit, live. cbn [layer page].
    destruct (mount_spec br file false (mkGlobals 0 0 [] [])) as (bs & g' & E & _ & Hcr & _).
    rewrite E. cbn. rewrite Hcr. apply incl_refl. }
  pose proof (page_ok_init br file) as Hp0.
  revert H0 Hp0. generalize (Portfolio_init br file).
  induction es as [| e es IH]; intros p Hc Hp; [exact Hc |].
  cbn [run]. apply IH; [apply live_from_factory_step; assumption | apply page_ok_step, Hp].
Qed.

End Provenance.

(** X1. On every reachable page, every live balloon is one of the balloons
    [randomBalloon] returned, field for field as it returned it: nothing in
    the layer edits a balloon or adds one from elsewhere. *)
Theorem live_balloons_are_factory_made br file es b :
  In b (live (run br file es (Portfolio_init br file))) ->
  In b (created (page (run br file es (Portfolio_init br file)))).
Proof. apply live_from_factory. Qed.

Lemma live_balloons_are_factory_made_witness :
  exists b,
    In b (live (run desktop App_tsx [SpawnTick; Click 3] (Portfolio_init desktop App_tsx)))
    /\ id b = 13
    /\ In b (created (page (run desktop App_tsx [SpawnTick; Click 3]
                              (Portfolio_init desktop App_tsx)))).
Proof.
  assert (H : exists b,
             In b (live (run desktop App_tsx [SpawnTick; Click 3]
                           (Portfolio_init desktop App_tsx))) /\ id b = 13).
  { eexists. split; [vm_compute; do 11 right; left; reflexivity | reflexivity]. }
  destruct H as (b & Hb & Hid). exists b. split; [exact Hb |]. split; [exact Hid |].
  apply (live_balloons_are_factory_made desktop App_tsx [SpawnTick; Click 3] b Hb).
Defined.

(** X2. When [Math.random()] returns values in [0, 1), every live balloon of
    every reachable page has its five parameters in the factory's ranges
    (size 36..72, x 2..98, hue 0..359, floatSec 10..20, sway 20..80),
    whatever was spawned, popped, completed or toggled before. *)
Theorem live_balloons_stay_in_ranges br file es :
  unit_draws br ->
  Forall factory_ranges (live (run br file es (Portfolio_init br file))).
Proof.
  intros Hr. rewrite Forall_forall. intros b Hb.
  pose proof (created_in_ranges br file es Hr) as Hc. rewrite Forall_forall in Hc.
  apply Hc, live_from_factory, Hb.
Qed.

Lemma live_balloons_stay_in_ranges_witness :
  unit_draws desktop
  /\ Forall factory_ranges
       (live (run desktop part_001 [SpawnTick; AnimationComplete 2; ToggleMute]
                (Portfolio_init desktop part_001))).
Proof.
  split; [exact draws_unit |].
  apply (live_balloons_stay_in_ranges desktop part_001
           [SpawnTick; AnimationComplete 2; ToggleMute] draws_unit).
Defined.

(** ** What each event does to a page *)

Section Events.

Variable br : Browser.
Variable file : source_file.

(** The effect of an event on a page whose layer is mounted. *)
Lemma step_mounted e p l :
  page_ok p -> layer p = Some l ->
  match e with
  | ToggleBalloons =>
      step br file e p
      = mkPage false (muted p) None (page p)
          (detached p ++ map (pair (set_spawn None l)) (awaiting l))
  | ToggleMute =>
      step br file e p
      = mkPage true (negb (muted p)) (Some (set_volRef (volume (negb (muted p))) l)) (page p)
          (detached p)
  | SpawnTick =>
      if length (balloons l) <=? 35
      then exists n,
          id n = idRef l
          /\ step br file e p
             = mkPage true (muted p)
                 (Some (set_balloons (balloons l ++ [n]) (set_idRef (S (idRef l)) l)))
                 (add_created n (count_random 5 (page p))) (detached p)
      else step br file e p = p
  | AnimationComplete i =>
      step br file e p
      = mkPage true (muted p) (Some (set_balloons (remove_id i (balloons l)) l))
          (add_log (RemoveRequest i) (page p)) (detached p)
  | Click i =>
      step br file e p
      = mkPage true (muted p)
          (Some (lay (snd (onClick br file i (mkWorld l (page p))))))
          (glob (snd (onClick br file i (mkWorld l (page p))))) (detached p)
  | ResumeSettled k fulfilled =>
      match nth_error (detached p) k with
      | Some (l', j) => step br file e p = resume_detached br file k l' j fulfilled p
      | None =>
          let k' := k - length (detached p) in
          match nth_error (awaiting l) k' with
          | Some i =>
              step br file e p
              = mkPage true (muted p)
                  (Some (lay (snd (onClick_resumed br file i fulfilled
                                     (mkWorld (set_awaiting (drop_nth k' (awaiting l)) l)
                                        (page p))))))
                  (glob (snd (onClick_resumed br file i fulfilled
                                (mkWorld (set_awaiting (drop_nth k' (awaiting l)) l)
                                   (page p)))))
                  (detached p)
          | None => step br file e p = p
          end
      end
  end.
Proof.
  intros Hp Hl. unfold page_ok in Hp. rewrite Hl in Hp. destruct Hp as (Hon & Hok).
  destruct p as [on m lo g d]. cbn [layer balloonsOn muted page detached] in *. subst on lo.
  destruct e as [| | | i | i | k fulfilled]; unfold step.
  - reflexivity.
  - unfold commit, BalloonsLayer_update, bind, modify, ret. cbn [balloonsOn muted layer page].
    destruct m; reflexivity.
  - unfold in_layer. cbn [layer balloonsOn muted page].
    destruct Hok as (_ & H2 & _). rewrite H2.
    pose proof (spawn_tick_spec br file (mkWorld l g)) as Ht. cbn [lay glob] in Ht.
    destruct (length (balloons l) <=? 35).
    + destruct Ht as (n & E & Hn). exists n. rewrite E. split; [exact Hn | reflexivity].
    + rewrite Ht. reflexivity.
  - unfold in_layer, onAnimationComplete. cbn [layer balloonsOn muted page].
    rewrite remove_eq. reflexivity.
  - reflexivity.
  - cbn [detached]. destruct (nth_error d k) as [[l' j] |]; [reflexivity |].
    cbv zeta. unfold in_layer. cbn [layer balloonsOn muted page].
    destruct (nth_error (awaiting l) _) as [i |]; reflexivity.
Qed.

(** The effect of an event on a page without a layer. *)
Lemma step_unmounted e p :
  page_ok p -> layer p = None ->
  match e with
  | ToggleBalloons =>
      exists bs g,
        step br file e p
        = mkPage true (muted p) (Some (mkLayer bs 13 (Some 1600) false (volume (muted p)) [])) g
            (detached p)
        /\ ids bs = seq 1 12
        /\ created g = created (page p) ++ bs
        /\ log g = log (page p)
  | ToggleMute =>
      step br file e p = mkPage false (negb (muted p)) None (page p) (detached p)
  | ResumeSettled k fulfilled =>
      match nth_error (detached p) k with
      | Some (l', j) => step br file e p = resume_detached br file k l' j fulfilled p
      | None => step br file e p = p
      end
  | _ => step br file e p = p
  end.
Proof.
  intros Hp Hl. unfold page_ok in Hp. rewrite Hl in Hp.
  destruct p as [on m lo g d]. cbn [layer balloonsOn muted page detached] in *. subst on lo.
  destruct e as [| | | i | i | k fulfilled]; unfold step; try reflexivity.
  - unfold commit. cbn [negb layer balloonsOn muted page].
    destruct (mount_spec br file m g) as (bs & g' & E & Hids & Hc & Hlog & _).
    rewrite E. exists bs, g'. cbn. repeat split; assumption.
  - cbn [detached]. destruct (nth_error d k) as [[l' j] |]; reflexivity.
Qed.

End Events.

(** Induction over the pages the first render can lead to. *)
Lemma reachable_ind br file (P : Page -> Prop) :
  P (Portfolio_init br file) ->
  (forall e p, page_ok p -> P p -> P (step br file e p)) ->
  forall es, P (run br file es (Portfolio_init br file)).
Proof.
  intros H0 Hs es. pose proof (page_ok_init br file) as Hp0.
  revert H0 Hp0. generalize (Portfolio_init br file).
  induction es as [| e es IH]; intros p Hc Hp; [exact Hc |].
  cbn [run]. apply IH; [apply Hs; assumption | apply page_ok_step, Hp].
Qed.

(** ** Render order *)

Lemma seq_sorted a n : StronglySorted lt (seq a n).
Proof.
  revert a. induction n as [| n IH]; intros a; cbn; constructor; [apply IH |].
  rewrite Forall_forall. intros y Hy. apply in_seq in Hy. lia.
Qed.

Lemma sorted_ids_remove i b :
  StronglySorted lt (ids b) -> StronglySorted lt (ids (remove_id i b)).
Proof.
  unfold ids, remove_id. induction b as [| y b IH]; cbn; intros H; [constructor |].
  inversion H as [| ? ? Hs Hf]; subst.
  destruct (id y =? i); cbn; [apply IH, Hs |].
  constructor; [apply IH, Hs |].
  rewrite Forall_forall in *. intros n Hn. apply Hf.
  apply in_map_iff in Hn. destruct Hn as (z & <- & Hz).
  apply filter_In in Hz. apply in_map, Hz.
Qed.

Lemma sorted_ids_snoc b n k :
  Forall (fun y => id y < k) b -> id n = k ->
  StronglySorted lt (ids b) -> StronglySorted lt (ids (b ++ [n])).
Proof.
  unfold ids. intros Hlt Hn. induction b as [| y b IH]; cbn; intros H.
  - repeat constructor.
  - inversion H as [| ? ? Hs Hf]; subst. inversion Hlt as [| ? ? Hy Hlt']; subst.
    constructor; [apply IH; assumption |].
    rewrite map_app. apply Forall_app. split; [exact Hf |].
    cbn. constructor; [lia | constructor].
Qed.

(** X3. On every reachable page the ids of the live balloons, read in render
    order, are strictly increasing: the React keys [key={bl.id}] of the
    rendered buttons are pairwise distinct, and a new balloon is always
    rendered after all the others. *)
Theorem live_ids_increase_in_render_order br file es :
  StronglySorted lt (ids (live (run br file es (Portfolio_init br file))))
  /\ NoDup (ids (live (run br file es (Portfolio_init br file)))).
Proof.
  split; [| apply live_ids_distinct].
  apply (reachable_ind br file (fun p => StronglySorted lt (ids (live p)))).
  - destruct (init_spec br file) as (bs & E & Hids). unfold live. rewrite E.
    cbn [balloons]. rewrite Hids. apply seq_sorted.
  - intros e p Hp Hs.
    assert (Hres : forall k f,
               StronglySorted lt (ids (live (step br file (ResumeSettled k f) p)))).
    { intros k f. destruct (nth_error (parked p) k) as [j |] eqn:Hk.
      - destruct (resume_on_page br file k j f p Hk) as ([(_ & B) | (_ & B)] & _).
        + rewrite B. apply sorted_ids_remove, Hs.
        + unfold live. rewrite B. exact Hs.
      - rewrite resume_nothing by exact Hk. exact Hs. }
    unfold live in *.
    destruct (layer p) as [l |] eqn:Hl.
    + pose proof (step_mounted br file e p l Hp Hl) as He.
      assert (Hlt : Forall (fun b => id b < idRef l) (balloons l)).
      { unfold page_ok in Hp. rewrite Hl in Hp. destruct Hp as (_ & _ & _ & _ & H & _). exact H. }
      destruct e as [| | | i | i | k fulfilled].
      * rewrite He. constructor.
      * rewrite He. exact Hs.
      * destruct (length (balloons l) <=? 35).
        -- destruct He as (n & Hn & ->). cbn [layer set_balloons balloons].
           eapply sorted_ids_snoc; eassumption.
        -- rewrite He, Hl. exact Hs.
      * rewrite He. cbn [layer set_balloons balloons]. apply sorted_ids_remove, Hs.
      * rewrite He. cbn [layer].
        destruct (onClick_spec br file i (mkWorld l (page p))) as (_ & _ & Hk).
        destruct Hk as [(B & _) | (_ & B & _)]; rewrite B; cbn [lay];
          [apply sorted_ids_remove, Hs | exact Hs].
      * exact (Hres k fulfilled).
    + pose proof (step_unmounted br file e p Hp Hl) as He.
      destruct e as [| | | i | i | k fulfilled];
        [| rewrite He, ?Hl; cbn [layer]; constructor .. | exact (Hres k fulfilled)].
      destruct He as (bs & g & -> & Hids & _). cbn [layer balloons].
      rewrite Hids. apply seq_sorted.
Qed.

(** ** The mute toggle *)

(** X4. On every reachable page, "Mute pops" changes the [muted] flag and the
    volume cell of the mounted layer and nothing else -- the live set, the id
    counter, the interval, the parked handlers (those of unmounted layers
    with the volume cells they hold) and the page-wide cells are left as
    they are -- and clicking it twice gives back the very same page. *)
Theorem mute_toggle_touches_only_the_volume br file es :
  let p := run br file es (Portfolio_init br file) in
  step br file ToggleMute p
  = mkPage (balloonsOn p) (negb (muted p))
      (option_map (set_volRef (volume (negb (muted p)))) (layer p)) (page p)
      (detached p)
  /\ live (step br file ToggleMute p) = live p
  /\ step br file ToggleMute (step br file ToggleMute p) = p.
Proof.
  cbv zeta. set (p := run br file es (Portfolio_init br file)).
  pose proof (page_ok_reachable br file es) as Hp. fold p in Hp.
  pose proof (page_ok_step br file ToggleMute p Hp) as Hp1.
  destruct (layer p) as [l |] eqn:Hl.
  - pose proof (step_mounted br file ToggleMute p l Hp Hl) as E. cbv beta iota in E.
    assert (Hon : balloonsOn p = true /\ volRef l = volume (muted p)).
    { unfold page_ok in Hp. rewrite Hl in Hp. destruct Hp as (H & _ & _ & Hv & _). tauto. }
    destruct Hon as (Hon & Hv).
    split; [rewrite E, Hon; reflexivity |].
    split; [rewrite E; unfold live; rewrite Hl; reflexivity |].
    assert (Hl1 : layer (step br file ToggleMute p)
                  = Some (set_volRef (volume (negb (muted p))) l)) by (rewrite E; reflexivity).
    rewrite (step_mounted br file ToggleMute _ _ Hp1 Hl1). rewrite E.
    cbn [muted page detached]. rewrite Bool.negb_involutive.
    destruct p as [on m lo g d]. cbn in *. subst. destruct l. cbn in *. subst. reflexivity.
  - pose proof (step_unmounted br file ToggleMute p Hp Hl) as E. cbv beta iota in E.
    assert (Hon : balloonsOn p = false).
    { unfold page_ok in Hp. rewrite Hl in Hp. exact Hp. }
    split; [rewrite E, Hon; reflexivity |].
    split; [rewrite E; unfold live; rewrite Hl; reflexivity |].
    assert (Hl1 : layer (step br file ToggleMute p) = None) by (rewrite E; reflexivity).
    rewrite (step_unmounted br file ToggleMute _ Hp1 Hl1). rewrite E.
    cbn [muted page detached]. rewrite Bool.negb_involutive.
    destruct p as [on m lo g d]. cbn in *. subst. reflexivity.
Qed.

(** ** Parked handlers *)

(** X6. In part_000 and part_001, whose handler does not await, and in
    App.tsx under a browser that never reports the context as suspended, no
    click handler is ever left waiting: on every reachable page the list of
    parked handlers is empty, and the settling of a promise finds nothing to
    resume. *)
Theorem no_handler_waits_without_suspension br file es :
  file <> App_tsx \/ (forall n, suspended br n = false) ->
  parked (run br file es (Portfolio_init br file)) = []
  /\ forall k fulfilled,
      step br file (ResumeSettled k fulfilled) (run br file es (Portfolio_init br file))
      = run br file es (Portfolio_init br file).
Proof.
  intros Hfile.
  assert (Hpk : parked (run br file es (Portfolio_init br file)) = []).
  { apply (reachable_ind br file (fun p => parked p = [])).
    - destruct (init_spec br file) as (bs & E & _). unfold parked. rewrite E.
      unfold Portfolio_init, commit. reflexivity.
    - intros e p Hp Hs.
      assert (Hres : forall k f, parked (step br file (ResumeSettled k f) p) = []).
      { intros k f. rewrite resume_nothing; [exact Hs |].
        rewrite Hs. destruct k; reflexivity. }
      unfold parked in *. apply app_eq_nil in Hs. destruct Hs as (Hd & Ha).
      apply map_eq_nil in Hd.
      destruct (layer p) as [l |] eqn:Hl.
      + pose proof (step_mounted br file e p l Hp Hl) as He.
        destruct e as [| | | i | i | k fulfilled].
        * rewrite He. cbn [layer detached]. rewrite Hd, Ha. reflexivity.
        * rewrite He. cbn [layer detached set_volRef awaiting]. rewrite Hd, Ha. reflexivity.
        * destruct (length (balloons l) <=? 35).
          -- destruct He as (n & _ & ->).
             cbn [layer detached set_balloons set_idRef awaiting]. rewrite Hd, Ha. reflexivity.
          -- rewrite He, Hl, Hd, Ha. reflexivity.
        * rewrite He. cbn [layer detached set_balloons awaiting]. rewrite Hd, Ha. reflexivity.
        * rewrite He. cbn [layer detached]. rewrite Hd.
          destruct (onClick_spec br file i (mkWorld l (page p))) as (_ & _ & Hk).
          destruct Hk as [(_ & A & _) | (Hf & _ & _ & Hsus & _)].
          -- rewrite A. exact Ha.
          -- destruct Hfile as [Hne | Hns]; [contradiction |].
             rewrite Hns in Hsus. discriminate.
        * exact (Hres k fulfilled).
      + pose proof (step_unmounted br file e p Hp Hl) as He.
        destruct e as [| | | i | i | k fulfilled];
          [| rewrite He, ?Hl; cbn [layer detached]; rewrite Hd; reflexivity ..
           | exact (Hres k fulfilled)].
        destruct He as (bs & g & -> & _). cbn [layer detached awaiting]. rewrite Hd.
        reflexivity. }
  split; [exact Hpk |].
  intros k fulfilled. apply resume_nothing. rewrite Hpk. destruct k; reflexivity.
Qed.

Lemma no_handler_waits_without_suspension_witness :
  (part_000 <> App_tsx \/ (forall n, suspended handheld n = false))
  /\ parked (run handheld part_000 [Click 3; Click 4] (Portfolio_init handheld part_000)) = [].
Proof.
  assert (H : part_000 <> App_tsx \/ (forall n, suspended handheld n = false))
    by (left; discriminate).
  split; [exact H |].
  apply (no_handler_waits_without_suspension handheld part_000 [Click 3; Click 4] H).
Defined.

(** ** Who calls the synthesizer *)

Lemma pops_snoc_remove l i : pops (l ++ [RemoveRequest i]) = pops l.
Proof. rewrite pops_app. cbn. lia. Qed.

Lemma pops_step br file e p :
  page_ok p ->
  pops (log (page (step br file e p)))
  = pops (log (page p))
    + match e with
      | Click _ => if balloonsOn p then 1 else 0
      | _ => 0
      end.
Proof.
  intros Hp.
  assert (Hres : forall k f,
             pops (log (page (step br file (ResumeSettled k f) p)))
             = pops (log (page p)) + 0).
  { intros k f. destruct (nth_error (parked p) k) as [j |] eqn:Hk.
    - destruct (resume_on_page br file k j f p Hk) as (_ & _ & _ & t & Ht & Ft).
      rewrite Ht, app_assoc, pops_snoc_remove, pops_app, (pops_synth t Ft). lia.
    - rewrite resume_nothing by exact Hk. lia. }
  destruct (layer p) as [l |] eqn:Hl.
  - assert (Hon : balloonsOn p = true).
    { unfold page_ok in Hp. rewrite Hl in Hp. tauto. }
    pose proof (step_mounted br file e p l Hp Hl) as He.
    destruct e as [| | | i | i | k fulfilled].
    + rewrite He. cbn [page]. lia.
    + rewrite He. cbn [page]. lia.
    + destruct (length (balloons l) <=? 35).
      * destruct He as (n & _ & ->). cbn [page add_created count_random log]. lia.
      * rewrite He. lia.
    + rewrite He. cbn [page add_log log]. rewrite pops_snoc_remove. lia.
    + rewrite (click_counts_one_pop br file i p l Hl), Hon. lia.
    + exact (Hres k fulfilled).
  - assert (Hoff : balloonsOn p = false).
    { unfold page_ok in Hp. rewrite Hl in Hp. exact Hp. }
    pose proof (step_unmounted br file e p Hp Hl) as He.
    destruct e as [| | | i | i | k fulfilled];
      [| rewrite He, ?Hoff; cbn [page]; lia .. | exact (Hres k fulfilled)].
    destruct He as (bs & g & -> & _ & _ & Hlog). cbn [page]. rewrite Hlog. lia.
Qed.

(** X7. On every reachable page, an event raises the number of synthesizer
    calls by one when it is a click on a balloon of the mounted layer, and
    leaves it unchanged otherwise: natural completion, spawn ticks, the two
    toggles and the resumption of a parked handler never play a pop. *)
Theorem only_clicks_call_the_synthesizer br file es e :
  let p := run br file es (Portfolio_init br file) in
  pops (log (page (step br file e p)))
  = pops (log (page p))
    + match e with
      | Click _ => if balloonsOn p then 1 else 0
      | _ => 0
      end.
Proof. cbv zeta. apply pops_step, page_ok_reachable. Qed.

(** ** The audio context *)

Lemma ctors_snoc l e : ctors (l ++ [e]) = ctors l + (if is_ctor e then 1 else 0).
Proof. unfold ctors. rewrite filter_app, length_app. cbn. destruct (is_ctor e); reflexivity. Qed.

Lemma ctors_le_pops_snoc l e :
  ctors l <= pops l -> is_ctor e = false -> ctors (l ++ [e]) <= pops (l ++ [e]).
Proof. intros H He. rewrite ctors_snoc, He, pops_app. lia. Qed.

Lemma ctx_same_refl w : ctx_same w w.
Proof. split; reflexivity. Qed.

Lemma ctx_same_trans a b c : ctx_same a b -> ctx_same b c -> ctx_same a c.
Proof. intros (H1 & H2) (K1 & K2). split; congruence. Qed.

Lemma ctx_kept_refl w : ctx_kept w w.
Proof. split; [reflexivity | auto]. Qed.

Lemma ctx_kept_trans a b c : ctx_kept a b -> ctx_kept b c -> ctx_kept a c.
Proof. intros (H1 & H2) (K1 & K2). split; [congruence | auto]. Qed.

Lemma ctx_same_kept w w' : ctx_same w w' -> ctx_kept w w'.
Proof.
  intros (H1 & H2). unfold ctx_kept, ctx_budget. rewrite H1, H2.
  split; [reflexivity | auto].
Qed.

Lemma keeps_weaken (R S : World -> World -> Prop) {A} (m : M A) :
  (forall w w', R w w' -> S w w') -> keeps R m -> keeps S m.
Proof. intros H Hm w. apply H, Hm. Qed.

Lemma same_emit e : is_ctor e = false -> keeps ctx_same (emit e).
Proof.
  intros He w. split; [reflexivity |]. unfold emit, modify.
  cbn [snd glob with_glob add_log log]. rewrite ctors_snoc, He. lia.
Qed.

Lemma same_call br op : is_ctor (Audio op) = false -> keeps ctx_same (call br op).
Proof.
  intros He w. unfold call.
  destruct (throws br (audio_calls (glob w))); cbn [snd].
  - split; reflexivity.
  - split; [reflexivity |]. unfold emit, modify.
    cbn [snd with_glob glob add_log count_audio log].
    rewrite ctors_snoc, He. lia.
Qed.

Lemma same_modify f :
  (forall w, ctxRef (lay (f w)) = ctxRef (lay w) /\ log (glob (f w)) = log (glob w)) ->
  keeps ctx_same (modify f).
Proof. intros Hf w. destruct (Hf w) as (H1 & H2). split; cbn; congruence. Qed.

Ltac same_step :=
  lazymatch goal with
  | |- keeps ctx_same (bind _ _) =>
      apply keeps_bind; [exact ctx_same_trans | | intros ?]
  | |- keeps ctx_same (try_catch _ _) =>
      apply keeps_try_catch; [exact ctx_same_trans | |]
  | |- keeps ctx_same (if _ then _ else _) => apply keeps_if
  | |- keeps ctx_same (call _ _) => apply same_call; reflexivity
  | |- keeps ctx_same (emit _) => apply same_emit; reflexivity
  | |- keeps ctx_same (ret _) => apply keeps_ret; exact ctx_same_refl
  | |- keeps ctx_same throw => apply keeps_throw; exact ctx_same_refl
  | |- keeps ctx_same (gets _) => apply keeps_gets; exact ctx_same_refl
  | |- keeps ctx_same (modify _) => apply same_modify; intros ?; split; reflexivity
  end.

Ltac kept_step :=
  lazymatch goal with
  | |- keeps ctx_kept (bind _ _) =>
      apply keeps_bind; [exact ctx_kept_trans | | intros ?]
  | |- keeps ctx_kept (try_catch _ _) =>
      apply keeps_try_catch; [exact ctx_kept_trans | |]
  | |- keeps ctx_kept (match ?s with Settled => _ | Suspended => _ end) => destruct s
  | |- keeps ctx_kept (if _ then _ else _) => apply keeps_if
  | |- keeps ctx_kept _ => apply (keeps_weaken ctx_same ctx_kept _ ctx_same_kept)
  end.

Section ContextFacts.

Variable br : Browser.
Variable file : source_file.

Lemma same_build_graph : keeps ctx_same (build_graph br file).
Proof. unfold build_graph. repeat same_step. Qed.

Lemma same_pop_resumed fulfilled : keeps ctx_same (pop_resumed br file fulfilled).
Proof. pose proof same_build_graph as Hg. unfold pop_resumed. repeat same_step. exact Hg. Qed.

Lemma same_remove i : keeps ctx_same (remove i).
Proof. unfold remove. repeat same_step. Qed.

Lemma same_onClick_resumed i fulfilled :
  keeps ctx_same (onClick_resumed br file i fulfilled).
Proof.
  pose proof (same_pop_resumed fulfilled) as Hp. pose proof (same_remove i) as Hr.
  unfold onClick_resumed. repeat same_step; assumption.
Qed.

(** The only place a context is constructed: on success the cell is filled,
    on failure nothing changes. *)
Lemma kept_acquire_ctx : keeps ctx_kept (acquire_ctx br).
Proof.
  intros w. unfold acquire_ctx, call, emit, bind, gets, modify. cbv beta iota.
  unfold ctx_kept, ctx_budget.
  destruct (ctxRef (lay w)) eqn:Hc; cbn [snd ret].
  - rewrite Hc. split; [reflexivity | auto].
  - destruct (throws br (audio_calls (glob w)));
      cbn [snd lay glob with_glob with_lay set_ctxRef ctxRef add_log count_audio log].
    + rewrite Hc. split; [reflexivity | discriminate].
    + rewrite ctors_snoc. cbn [is_ctor]. split; [lia | auto].
Qed.

Lemma kept_pop : keeps ctx_kept (pop br file).
Proof.
  pose proof same_build_graph as Hg. pose proof kept_acquire_ctx as Ha.
  unfold pop, pop_body.
  destruct file; repeat first [exact Ha | kept_step];
    repeat same_step; exact Hg.
Qed.

Lemma kept_onClick i : keeps ctx_kept (onClick br file i).
Proof.
  pose proof kept_pop as Hp. pose proof (same_remove i) as Hr. unfold onClick.
  destruct file; repeat first [exact Hp | kept_step]; repeat same_step; exact Hr.
Qed.

(** The settling of a promise constructs no context, whoever waited. *)
Lemma resume_ctx k f p :
  let p2 := step br file (ResumeSettled k f) p in
  ctors (log (page p2)) = ctors (log (page p))
  /\ balloonsOn p2 = balloonsOn p
  /\ match layer p2, layer p with
     | Some l2, Some l => ctxRef l2 = ctxRef l
     | None, None => True
     | _, _ => False
     end.
Proof.
  cbv zeta. unfold step.
  destruct (nth_error (detached p) k) as [[l' j] |].
  - unfold resume_detached. cbn [page balloonsOn layer].
    destruct (same_onClick_resumed j f (mkWorld l' (page p))) as (_ & H2).
    cbn [lay glob] in H2. rewrite H2.
    destruct (layer p); repeat split.
  - cbv zeta. unfold in_layer.
    destruct (layer p) as [l |] eqn:Hl; [| rewrite Hl; repeat split].
    cbn [page balloonsOn layer].
    destruct (nth_error (awaiting l) _) as [i |]; [| repeat split].
    unfold bind, modify. cbv beta iota.
    match goal with
    | |- context [onClick_resumed br file i f ?W] =>
        destruct (same_onClick_resumed i f W) as (H1 & H2)
    end.
    cbn [lay glob with_lay set_awaiting ctxRef] in H1, H2. rewrite H1, H2.
    repeat split.
Qed.

(** One event raises the page's budget only when it mounts a layer. *)
Lemma budget_step e p :
  page_ok p ->
  page_ctx_budget (step br file e p)
  <= page_ctx_budget p
     + match e with
       | ToggleBalloons => if balloonsOn p then 0 else 1
       | _ => 0
       end
  /\ balloonsOn (step br file e p)
     = match e with
       | ToggleBalloons => negb (balloonsOn p)
       | _ => balloonsOn p
       end.
Proof.
  intros Hp.
  assert (Hres : forall k f,
             page_ctx_budget (step br file (ResumeSettled k f) p) <= page_ctx_budget p + 0
             /\ balloonsOn (step br file (ResumeSettled k f) p) = balloonsOn p).
  { intros k f. destruct (resume_ctx k f p) as (C1 & C2 & C3).
    split; [| exact C2]. unfold page_ctx_budget. rewrite C1.
    destruct (layer (step br file (ResumeSettled k f) p)), (layer p);
      try contradiction; [rewrite C3 |]; lia. }
  unfold page_ctx_budget in *.
  destruct (layer p) as [l |] eqn:Hl.
  - assert (Hon : balloonsOn p = true).
    { unfold page_ok in Hp. rewrite Hl in Hp. tauto. }
    pose proof (step_mounted br file e p l Hp Hl) as He. rewrite Hon in *.
    destruct e as [| | | i | i | k fulfilled].
    + rewrite He. cbn [layer page balloonsOn]. split; [lia | reflexivity].
    + rewrite He. cbn [layer page balloonsOn set_volRef ctxRef]. split; [lia | reflexivity].
    + destruct (length (balloons l) <=? 35).
      * destruct He as (n & _ & ->).
        cbn [layer page balloonsOn add_created count_random log set_balloons set_idRef ctxRef].
        split; [lia | reflexivity].
      * rewrite He, Hl, Hon. split; [lia | reflexivity].
    + rewrite He. cbn [layer page balloonsOn add_log log set_balloons ctxRef].
      rewrite ctors_snoc. cbn [is_ctor]. split; [lia | reflexivity].
    + rewrite He. cbn [layer page balloonsOn].
      destruct (kept_onClick i (mkWorld l (page p))) as (Hb & _).
      unfold ctx_budget in Hb. cbn [lay glob] in Hb. split; [lia | reflexivity].
    + exact (Hres k fulfilled).
  - assert (Hoff : balloonsOn p = false).
    { unfold page_ok in Hp. rewrite Hl in Hp. exact Hp. }
    pose proof (step_unmounted br file e p Hp Hl) as He. rewrite Hoff in *.
    destruct e as [| | | i | i | k fulfilled];
      [| rewrite He, ?Hl, ?Hoff; cbn [layer page balloonsOn]; split; [lia | reflexivity] ..
       | exact (Hres k fulfilled)].
    destruct He as (bs & g & -> & _ & _ & Hlog). cbn [layer page balloonsOn ctxRef negb].
    rewrite Hlog. split; [lia | reflexivity].
Qed.

Lemma budget_run es p :
  page_ok p ->
  page_ctx_budget (run br file es p) <= page_ctx_budget p + mounts es (balloonsOn p).
Proof.
  revert p. induction es as [| e es IH]; intros p Hp; [cbn; lia |].
  cbn [run]. specialize (IH _ (page_ok_step br file e p Hp)).
  destruct (budget_step e p Hp) as (Hb & Hon). rewrite Hon in IH.
  destruct e; cbn [mounts]; cbn [mounts] in IH; lia.
Qed.

(** Contexts are constructed by clicks only. *)
Lemma ctors_le_pops_step e p :
  page_ok p ->
  ctors (log (page p)) <= pops (log (page p)) ->
  ctors (log (page (step br file e p))) <= pops (log (page (step br file e p))).
Proof.
  intros Hp Hc. rewrite (pops_step br file e p Hp).
  destruct (layer p) as [l |] eqn:Hl.
  - assert (Hon : balloonsOn p = true).
    { unfold page_ok in Hp. rewrite Hl in Hp. tauto. }
    pose proof (step_mounted br file e p l Hp Hl) as He. rewrite Hon.
    destruct e as [| | | i | i | k fulfilled].
    + rewrite He. cbn [page]. lia.
    + rewrite He. cbn [page]. lia.
    + destruct (length (balloons l) <=? 35).
      * destruct He as (n & _ & ->). cbn [page add_created count_random log]. lia.
      * rewrite He. lia.
    + rewrite He. cbn [page add_log log]. rewrite ctors_snoc. cbn [is_ctor]. lia.
    + rewrite He. cbn [page].
      destruct (kept_onClick i (mkWorld l (page p))) as (Hb & _).
      unfold ctx_budget in Hb. cbn [lay glob] in Hb.
      destruct (ctxRef (lay (snd (onClick br file i (mkWorld l (page p))))));
        destruct (ctxRef l); lia.
    + destruct (resume_ctx k fulfilled p) as (C1 & _). rewrite C1. lia.
  - pose proof (step_unmounted br file e p Hp Hl) as He.
    destruct e as [| | | i | i | k fulfilled];
      [| rewrite He; cbn [page]; lia ..
       | destruct (resume_ctx k fulfilled p) as (C1 & _); rewrite C1; lia].
    destruct He as (bs & g & -> & _ & _ & Hlog). cbn [page]. rewrite Hlog. lia.
Qed.

End ContextFacts.

(** X5. The audio context is made lazily and reused.  On every reachable
    page the number of [new AudioContext()] calls that succeeded is at most
    the number of synthesizer calls (none before the first click) and at most
    one per mounted layer (one for the first render, one more for every
    re-enabling), however many balloons were popped. *)
Theorem audio_context_is_lazy_and_reused br file es :
  ctors (log (page (run br file es (Portfolio_init br file))))
  <= pops (log (page (run br file es (Portfolio_init br file))))
  /\ ctors (log (page (run br file es (Portfolio_init br file)))) <= 1 + mounts es true.
Proof.
  split.
  - apply (reachable_ind br file (fun p => ctors (log (page p)) <= pops (log (page p)))).
    + destruct (mount_spec br file false (mkGlobals 0 0 [] [])) as (bs & g & E & _ & _ & Hl & _).
      unfold Portfolio_init, commit. cbn [layer page]. rewrite E. cbn [page snd glob].
      rewrite Hl. cbn. lia.
    + intros e p Hp H. apply ctors_le_pops_step; assumption.
  - pose proof (budget_run br file es _ (page_ok_init br file)) as H.
    assert (H0 : page_ctx_budget (Portfolio_init br file) = 1
                 /\ balloonsOn (Portfolio_init br file) = true).
    { destruct (mount_spec br file false (mkGlobals 0 0 [] [])) as (bs & g & E & _ & _ & Hl & _).
      unfold Portfolio_init, commit, page_ctx_budget. cbn [layer page]. rewrite E.
      cbn [page layer snd glob lay ctxRef balloonsOn]. rewrite Hl. split; reflexivity. }
    destruct H0 as (H0 & Hon). rewrite H0, Hon in H.
    unfold page_ctx_budget in H. lia.
Qed.

(** ** A balloon that waits can be popped again *)

Lemma onClick_parks br i w :
  (forall n, suspended br n = true) -> (forall n, throws br n = false) ->
  parked_at_await br i w (snd (onClick br App_tsx i w)).
Proof.
  intros Hs Ht. unfold parked_at_await. rewrite Hs.
  unfold onClick, pop, pop_body, acquire_ctx, call, emit, try_catch, bind, ret, gets, modify.
  destruct w as [l g]. cbn -[Nat.add].
  destruct (ctxRef l); do 4 (cbn -[Nat.add]; rewrite ?Hs, ?Ht);
    repeat split; rewrite <- ?app_assoc; reflexivity.
Qed.

(** X8. App.tsx, in a browser whose context stays suspended and whose calls
    do not throw: a click leaves the balloon live while its handler waits, so
    a second click on the same balloon calls the synthesizer a second time and
    parks a second handler; when the two promises settle, fulfilled or
    rejected, the balloon is removed and no further synthesizer call is
    made. *)
Theorem waiting_balloon_can_be_popped_again br p l i f1 f2 :
  (forall n, suspended br n = true) -> (forall n, throws br n = false) ->
  layer p = Some l ->
  let p2 := step br App_tsx (Click i) (step br App_tsx (Click i) p) in
  let p4 := step br App_tsx (ResumeSettled (length (parked p)) f2)
              (step br App_tsx (ResumeSettled (length (parked p)) f1) p2) in
  live p2 = live p
  /\ parked p2 = parked p ++ [i; i]
  /\ pops (log (page p2)) = 2 + pops (log (page p))
  /\ live p4 = remove_id i (live p)
  /\ parked p4 = parked p
  /\ pops (log (page p4)) = 2 + pops (log (page p)).
Proof.
  intros Hs Ht Hl. cbv zeta.
  set (p1 := step br App_tsx (Click i) p).
  assert (H1 : exists l1, layer p1 = Some l1 /\ live p1 = live p
                          /\ parked p1 = parked p ++ [i]
                          /\ detached p1 = detached p).
  { unfold p1, step, in_layer, live, parked. rewrite Hl. cbn [layer detached].
    destruct (onClick_parks br i (mkWorld l (page p)) Hs Ht) as (B & A & _).
    cbn [lay] in B, A.
    eexists. split; [reflexivity |]. split; [exact B |].
    split; [rewrite A, app_assoc; reflexivity | reflexivity]. }
  destruct H1 as (l1 & Hl1 & B1 & A1 & D1).
  set (p2 := step br App_tsx (Click i) p1).
  assert (H2 : live p2 = live p1 /\ parked p2 = parked p1 ++ [i]
               /\ detached p2 = detached p1).
  { unfold p2, step, in_layer, live, parked. rewrite Hl1. cbn [layer detached].
    destruct (onClick_parks br i (mkWorld l1 (page p1)) Hs Ht) as (B & A & _).
    cbn [lay] in B, A.
    split; [exact B |]. split; [rewrite A, app_assoc; reflexivity | reflexivity]. }
  destruct H2 as (B2 & A2 & D2).
  assert (Dk : length (detached p) <= length (parked p)).
  { unfold parked. rewrite length_app, length_map. lia. }
  assert (P2 : pops (log (page p2)) = 2 + pops (log (page p))).
  { unfold p2. rewrite (click_counts_one_pop br App_tsx i p1 l1 Hl1).
    unfold p1. rewrite (click_counts_one_pop br App_tsx i p l Hl). reflexivity. }
  assert (A2' : parked p2 = parked p ++ [i; i]).
  { rewrite A2, A1, <- app_assoc. reflexivity. }
  assert (K1 : nth_error (parked p2) (length (parked p)) = Some i).
  { rewrite A2'. rewrite nth_error_app2, Nat.sub_diag by lia. reflexivity. }
  destruct (resume_on_page br App_tsx _ i f1 p2 K1) as (B3 & A3 & D3 & t3 & L3 & F3).
  set (p3 := step br App_tsx (ResumeSettled (length (parked p)) f1) p2) in *.
  rewrite drop_nth_beyond in D3 by (rewrite D2, D1; exact Dk).
  destruct B3 as [(_ & B3) | (Hlt & _)]; [| rewrite D2, D1 in Hlt; lia].
  assert (A3' : parked p3 = parked p ++ [i]).
  { rewrite A3, A2'. unfold drop_nth.
    rewrite firstn_app, Nat.sub_diag, firstn_all. cbn [firstn].
    rewrite skipn_app, skipn_all2 by lia.
    replace (S (length (parked p)) - length (parked p)) with 1 by lia.
    cbn. rewrite app_nil_r. reflexivity. }
  assert (K2 : nth_error (parked p3) (length (parked p)) = Some i).
  { rewrite A3'. rewrite nth_error_app2, Nat.sub_diag by lia. reflexivity. }
  destruct (resume_on_page br App_tsx _ i f2 p3 K2) as (B4 & A4 & _ & t4 & L4 & F4).
  destruct B4 as [(_ & B4) | (Hlt & _)]; [| rewrite D3, D2, D1 in Hlt; lia].
  split; [congruence |]. split; [exact A2' |]. split; [exact P2 |].
  split; [rewrite B4, B3, B2, B1; apply remove_id_idem |].
  split.
  - rewrite A4, A3'. unfold drop_nth.
    rewrite firstn_app, Nat.sub_diag, firstn_all. cbn [firstn].
    rewrite skipn_app, skipn_all2 by lia.
    replace (S (length (parked p)) - length (parked p)) with 1 by lia.
    cbn. rewrite !app_nil_r. reflexivity.
  - rewrite L4, L3, !app_assoc, !pops_snoc_remove, !pops_app,
      (pops_synth t3 F3), (pops_synth t4 F4), P2.
    change (pops [RemoveRequest i]) with 0. lia.
Qed.

Lemma waiting_balloon_can_be_popped_again_witness :
  (forall n, suspended phone n = true) /\ (forall n, throws phone n = false)
  /\ exists l,
      layer (Portfolio_init phone App_tsx) = Some l
      /\ pops (log (page (step phone App_tsx (Click 3)
                            (step phone App_tsx (Click 3) (Portfolio_init phone App_tsx)))))
         = 2 + pops (log (page (Portfolio_init phone App_tsx))).
Proof.
  assert (Hs : forall n, suspended phone n = true) by reflexivity.
  assert (Ht : forall n, throws phone n = false) by reflexivity.
  split; [exact Hs |]. split; [exact Ht |].
  destruct (init_spec phone App_tsx) as (b & Hl & _).
  eexists. split; [exact Hl |].
  pose proof (waiting_balloon_can_be_popped_again phone _ _ 3 true true Hs Ht Hl) as K.
  cbv zeta in K. destruct K as (_ & _ & K & _). exact K.
Defined.

(** ** How loud a pop is *)








Section LoudnessFacts.

Variable br : Browser.
Variable file : source_file.
Variable v : Q.







End LoudnessFacts.






(** A click made with sound on, muted before the promise settles. *)
Example muted_before_resumption :
  log (page (run phone App_tsx [Click 3; ToggleMute; ResumeSettled 0 true]
               (Portfolio_init phone App_tsx)))
  = [StopPropagation; PopCalled; Audio new_AudioContext; Audio resume;
     Audio (createGain gain);
     Audio (setValueAtTime gain_gain 0.0001 0);
     Audio (exponentialRampToValueAtTime gain_gain 0.0001 (0 + 0.12));
     Audio createOscillator; Audio set_type_triangle;
     Audio (setValueAtTime osc_frequency 240 0);
     Audio (exponentialRampToValueAtTime osc_frequency 60 (0 + 0.12));
     Audio (createBuffer 1 2048 44100); Audio (getChannelData 0);
     Audio (fill_data 2048); Audio createBufferSource; Audio set_buffer;
     Audio (createGain noiseGain);
     Audio (setValueAtTime noiseGain_gain (0 * 0.4) 0);
     Audio (exponentialRampToValueAtTime noiseGain_gain 0.0001 (0 + 0.05));
     Audio (connect osc gain); Audio (connect noise noiseGain);
     Audio (connect noiseGain gain); Audio (connect gain destination);
     Audio (start osc 0); Audio (stop osc (0 + 0.13));
     Audio (start noise 0); Audio (stop noise (0 + 0.06));
     RemoveRequest 3]%Q.
Proof. vm_compute. reflexivity. Qed.

(** A click made with sound on, its layer unmounted and the page muted
    before the promise settles: the graph is built at full volume. *)
Example unmounted_click_pops_at_its_own_volume :
  muted (run phone App_tsx [Click 3; ToggleBalloons; ToggleMute; ResumeSettled 0 true]
           (Portfolio_init phone App_tsx)) = true
  /\ nth_error (log (page (run phone App_tsx
                             [Click 3; ToggleBalloons; ToggleMute; ResumeSettled 0 true]
                             (Portfolio_init phone App_tsx)))) 5
     = Some (Audio (setValueAtTime gain_gain 0.06 0)).
Proof. split; vm_compute; reflexivity. Qed.

(** * Further properties of the rest of the page *)

Module ChromeFacts.

Import String.
Import Chrome.
Local Open Scope string_scope.

(** ** The class-name helper *)

Lemma append_assoc (a b c : string) : (a ++ b) ++ c = a ++ (b ++ c).
Proof. induction a as [|x a IH]; cbn; [| rewrite IH]; reflexivity. Qed.

Lemma append_empty (a b : string) : a ++ b = "" -> a = "" /\ b = "".
Proof. destruct a; cbn; intros E; [now split | discriminate]. Qed.

Lemma concat_app sep (l1 l2 : list string) :
  l1 <> nil -> l2 <> nil ->
  concat sep (l1 ++ l2)%list = concat sep l1 ++ sep ++ concat sep l2.
Proof.
  intros H1 H2. induction l1 as [|x [|y l1] IH]; [congruence | |].
  - destruct l2; [congruence | reflexivity].
  - change (concat sep ((x :: y :: l1) ++ l2)%list)
      with (x ++ sep ++ concat sep ((y :: l1) ++ l2)%list).
    rewrite IH by discriminate.
    change (concat sep (x :: y :: l1)) with (x ++ sep ++ concat sep (y :: l1)).
    now rewrite !append_assoc.
Qed.

Lemma truthy_text c : Boolean c = true -> to_text c <> "".
Proof.
  destruct c as [s|[|]|]; cbn; try discriminate.
  destruct (eqb_spec s ""); [discriminate | auto].
Qed.

Lemma concat_empty sep (l : list string) :
  List.Forall (fun s => s <> "") l -> concat sep l = "" -> l = nil.
Proof.
  intros Hl. destruct Hl as [|x l Hx Hl]; [reflexivity |].
  destruct l; cbn; intros E; [contradiction |].
  apply append_empty in E. now destruct E.
Qed.

(** The result is empty exactly when no argument is truthy. *)
Lemma cx_empty cls : cx cls = "" <-> List.filter Boolean cls = nil.
Proof.
  unfold cx, join. split.
  - intros E. apply concat_empty in E.
    + now apply List.map_eq_nil in E.
    + apply List.Forall_map, List.Forall_forall. intros c Hc.
      apply List.filter_In in Hc. now apply truthy_text.
  - now intros ->.
Qed.

(** X10. Arguments that are [false], [undefined] or the empty string leave no
    trace in the class name, wherever they stand among the arguments: no
    word and no extra space.  This is what makes [Card] with its default
    [className = ""] print the base classes alone. *)
Theorem cx_ignores_falsy_arguments (before after : list ClassValue) c :
  Boolean c = false ->
  cx (before ++ c :: after)%list = cx (before ++ after)%list.
Proof.
  intros Hc. unfold cx. now rewrite !List.filter_app; cbn; rewrite Hc.
Qed.

Lemma cx_ignores_falsy_arguments_witness :
  Boolean (Str "") = false
  /\ cx ([Str "rounded-2xl p-5"] ++ Str "" :: [])%list
     = cx ([Str "rounded-2xl p-5"] ++ [])%list.
Proof.
  split; [reflexivity |].
  apply (cx_ignores_falsy_arguments [Str "rounded-2xl p-5"] [] (Str "")).
  reflexivity.
Defined.

(** X11. The class name of two argument lists put together is the two class
    names separated by exactly one space, and just one of them when the
    other is empty: conditional classes never leave a leading, trailing or
    doubled separator. *)
Theorem cx_joins_with_single_spaces (cls1 cls2 : list ClassValue) :
  cx (cls1 ++ cls2)%list
  = if String.eqb (cx cls1) "" then cx cls2
    else if String.eqb (cx cls2) "" then cx cls1
    else cx cls1 ++ " " ++ cx cls2.
Proof.
  destruct (eqb_spec (cx cls1) "") as [E1|E1].
  - apply cx_empty in E1. unfold cx. now rewrite List.filter_app, E1.
  - destruct (eqb_spec (cx cls2) "") as [E2|E2].
    + apply cx_empty in E2. unfold cx.
      now rewrite List.filter_app, E2, List.app_nil_r.
    + unfold cx, join. rewrite List.filter_app, List.map_app.
      apply concat_app; intros E; apply List.map_eq_nil in E;
        [apply E1 | apply E2]; now apply cx_empty.
Qed.

(** The conditional-class idiom of the sort buttons of part_000:
    [cx(base, cond && extra)]. *)
Example cx_conditional_class (cond : bool) :
  cx [Str "px-3 py-1"; if cond then Str "bg-zinc-900" else Bool false]
  = if cond then "px-3 py-1 bg-zinc-900" else "px-3 py-1".
Proof. now destruct cond. Qed.

(** ** The theme *)

Lemma initial_theme_nonempty stored : initial_theme stored <> "".
Proof.
  destruct stored as [s|]; cbn; [| discriminate].
  destruct (eqb_spec s ""); [discriminate | assumption].
Qed.

Lemma toggle_values t : toggle t = "dark" \/ toggle t = "light".
Proof. unfold toggle. destruct (String.eqb t "dark"); auto. Qed.

Lemma toggle_nonempty t : toggle t <> "".
Proof. destruct (toggle_values t) as [-> | ->]; discriminate. Qed.

Lemma dark_toggle t : dark (toggle t) = negb (dark t).
Proof. unfold dark, toggle. now destruct (String.eqb t "dark"). Qed.

(** Every page is what the effect wrote for a theme that is not empty. *)
Lemma theme_reachable stored es :
  exists t, t <> "" /\ theme_run es (theme_load stored) = theme_effect t.
Proof.
  unfold theme_load.
  assert (H := initial_theme_nonempty stored).
  revert H. generalize (initial_theme stored). intros t Ht.
  revert t Ht. induction es as [|e es IH]; intros t Ht; cbn [theme_run].
  - now exists t.
  - destruct e; cbn [theme_step theme_effect theme storage].
    + apply IH, toggle_nonempty.
    + unfold theme_load. cbn [initial_theme].
      destruct (eqb_spec t ""); [contradiction | now apply IH].
Qed.

(** X12. The theme survives a reload: whatever the storage held at first
    and whatever was clicked since, loading the page again gives the same
    theme, the same class and attribute on the root element and the same
    stored value. *)
Theorem theme_survives_reload (stored : option string) (es : list ThemeEvent) :
  let p := theme_run es (theme_load stored) in
  theme_step Reload p = p.
Proof.
  cbv zeta. destruct (theme_reachable stored es) as (t & Ht & ->).
  cbn. unfold theme_load. cbn.
  destruct (eqb_spec t ""); [contradiction | reflexivity].
Qed.

(** X13. The theme button always flips the look of the page; the new theme
    is "dark" or "light" whatever the storage held; the root attribute says
    what the class says; two clicks give back the same look, and the same
    page exactly when the theme was one of the two names. *)
Theorem theme_toggle_flips_the_look (stored : option string) (es : list ThemeEvent) :
  let p := theme_run es (theme_load stored) in
  let q := theme_step ToggleTheme p in
  let r := theme_step ToggleTheme q in
  root_dark q = negb (root_dark p)
  /\ (theme q = "dark" \/ theme q = "light")
  /\ root_data_theme p = (if root_dark p then "dark" else "light")
  /\ root_dark r = root_dark p /\ root_data_theme r = root_data_theme p
  /\ (r = p <-> theme p = "dark" \/ theme p = "light").
Proof.
  cbv zeta. destruct (theme_reachable stored es) as (t & Ht & ->).
  cbn [theme_step theme_effect theme root_dark root_data_theme].
  rewrite !dark_toggle, Bool.negb_involutive.
  repeat split; auto using toggle_values.
  - intros E. injection E as E _. rewrite <- E. apply toggle_values.
  - intros [-> | ->]; reflexivity.
Qed.

(** A value left in the storage by something else is shown as the light
    theme, and the first click turns the page dark. *)
Example foreign_theme_value :
  let p := theme_load (Some "blue") in
  root_dark p = false /\ root_data_theme p = "light"
  /\ theme (theme_step ToggleTheme p) = "dark".
Proof. repeat split. Qed.

(** ** The figures of the map section *)

Lemma nodup_length_le (l : list string) :
  List.length (List.nodup string_dec l) <= List.length l.
Proof.
  induction l as [|a l IH]; cbn; [lia |].
  destruct (List.in_dec string_dec a l); cbn; lia.
Qed.

Lemma nodup_length_eq (l : list string) :
  List.length (List.nodup string_dec l) = List.length l <-> List.NoDup l.
Proof.
  split.
  - induction l as [|a l IH]; cbn; [constructor |].
    destruct (List.in_dec string_dec a l) as [Hin|Hin]; cbn; intros E.
    + pose proof (nodup_length_le l). lia.
    + constructor; [assumption | apply IH; lia].
  - intros H. now rewrite List.nodup_fixed_point.
Qed.

(** X14. The number of countries shown is at most the number of cities, is
    at least one as soon as there is a visit, and equals the number of
    cities exactly when no country occurs twice; a country is counted when
    and only when some visit names it. *)
Theorem countries_counted_once Number (VISITS : list Visit) :
  let s := stats Number VISITS in
  countries s <= cities s
  /\ (cities s = 0 <-> countries s = 0)
  /\ (countries s = cities s <-> List.NoDup (List.map country VISITS))
  /\ exists cs, List.NoDup cs /\ List.length cs = countries s
                /\ forall c, List.In c cs <-> exists v, List.In v VISITS /\ country v = c.
Proof.
  cbv zeta. unfold stats. cbn [countries cities].
  rewrite <- (List.length_map country VISITS).
  generalize (nodup_length_le (List.map country VISITS)).
  generalize (nodup_length_eq (List.map country VISITS)).
  intros Heq Hle. repeat split; try tauto.
  - destruct (List.map country VISITS) as [|a l]; [reflexivity | discriminate].
  - destruct (List.map country VISITS) as [|a l] eqn:E; [reflexivity |].
    intros H0. apply List.length_zero_iff_nil in H0.
    assert (Hin : List.In a (List.nodup string_dec (a :: l)))
      by (apply List.nodup_In; now left).
    rewrite H0 in Hin. destruct Hin.
  - exists (List.nodup string_dec (List.map country VISITS)).
    split; [apply List.NoDup_nodup | split; [reflexivity |]].
    intros c. rewrite List.nodup_In, List.in_map_iff.
    split; intros (v & H1 & H2); exists v; tauto.
Qed.

(** The order on numbers that are not [NaN]. *)
Lemma num_le_refl a : isNaN a = false -> num_le a a = true.
Proof. destruct a; cbn; try easy. intros _. apply Qle_bool_iff, Qle_refl. Qed.

Lemma num_le_trans a b c :
  num_le a b = true -> num_le b c = true -> num_le a c = true.
Proof.
  destruct a, b, c; cbn; try easy.
  rewrite !Qle_bool_iff. apply Qle_trans.
Qed.

Lemma num_le_total a b :
  isNaN a = false -> isNaN b = false -> num_le a b = false -> num_le b a = true.
Proof.
  destruct a as [| |p|], b as [| |q|]; cbn; try easy.
  intros _ _ H. apply Qle_bool_iff.
  destruct (Qlt_le_dec q p) as [L|L]; [now apply Qlt_le_weak |].
  apply Qle_bool_iff in L. congruence.
Qed.

Lemma min2_spec a b :
  isNaN a = false -> isNaN b = false ->
  isNaN (min2 a b) = false /\ (min2 a b = a \/ min2 a b = b)
  /\ num_le (min2 a b) a = true /\ num_le (min2 a b) b = true.
Proof.
  intros Ha Hb.
  assert (E : min2 a b = if num_le a b then a else b)
    by (destruct a, b; try reflexivity; discriminate).
  rewrite E. destruct (num_le a b) eqn:L.
  - repeat split; auto using num_le_refl.
  - repeat split; auto using num_le_refl, num_le_total.
Qed.

Lemma max2_spec a b :
  isNaN a = false -> isNaN b = false ->
  isNaN (max2 a b) = false /\ (max2 a b = a \/ max2 a b = b)
  /\ num_le a (max2 a b) = true /\ num_le b (max2 a b) = true.
Proof.
  intros Ha Hb.
  assert (E : max2 a b = if num_le a b then b else a)
    by (destruct a, b; try reflexivity; discriminate).
  rewrite E. destruct (num_le a b) eqn:L.
  - repeat split; auto using num_le_refl.
  - repeat split; auto using num_le_refl, num_le_total.
Qed.

Lemma Math_min_spec l acc :
  isNaN acc = false -> List.Forall (fun y => isNaN y = false) l ->
  let r := List.fold_left min2 l acc in
  isNaN r = false /\ (r = acc \/ List.In r l) /\ num_le r acc = true
  /\ forall y, List.In y l -> num_le r y = true.
Proof.
  intros Hacc Hl. revert acc Hacc.
  induction Hl as [|x l Hx Hl IH]; intros acc Hacc; cbn [List.fold_left].
  - cbn. repeat split; auto using num_le_refl; intros y [].
  - destruct (min2_spec acc x Hacc Hx) as (N & S & L1 & L2).
    destruct (IH (min2 acc x) N) as (N' & S' & L' & A').
    cbv zeta. repeat split; [assumption | | |].
    + destruct S' as [-> | S']; [| right; now right].
      destruct S as [-> | ->]; [now left | right; now left].
    + eauto using num_le_trans.
    + intros y [<- | Hy]; [eauto using num_le_trans | auto].
Qed.

Lemma Math_max_spec l acc :
  isNaN acc = false -> List.Forall (fun y => isNaN y = false) l ->
  let r := List.fold_left max2 l acc in
  isNaN r = false /\ (r = acc \/ List.In r l) /\ num_le acc r = true
  /\ forall y, List.In y l -> num_le y r = true.
Proof.
  intros Hacc Hl. revert acc Hacc.
  induction Hl as [|x l Hx Hl IH]; intros acc Hacc; cbn [List.fold_left].
  - cbn. repeat split; auto using num_le_refl; intros y [].
  - destruct (max2_spec acc x Hacc Hx) as (N & S & L1 & L2).
    destruct (IH (max2 acc x) N) as (N' & S' & L' & A').
    cbv zeta. repeat split; [assumption | | |].
    + destruct S' as [-> | S']; [| right; now right].
      destruct S as [-> | ->]; [now left | right; now left].
    + eauto using num_le_trans.
    + intros y [<- | Hy]; [eauto using num_le_trans | auto].
Qed.

Lemma years_numbers Number VISITS :
  List.Forall (fun y => isNaN y = false) (years Number VISITS).
Proof.
  apply List.Forall_forall. intros y Hy. apply List.filter_In in Hy.
  destruct Hy as [_ Hy]. now destruct (isNaN y).
Qed.

Lemma above_infinity y : num_le PosInf y = true -> y = PosInf.
Proof. now destruct y. Qed.

Lemma below_infinity y : num_le y NegInf = true -> y = NegInf.
Proof. now destruct y. Qed.

(** X15. The first and the latest trip.  When some date reads as a number,
    both figures are years of visits, the first is at most and the latest at
    least every year that reads as a number, and neither is [NaN]; dates
    that do not read as numbers are passed over.  When no date reads as a
    number (in particular with no visit at all) the page shows [Infinity]
    as the first trip and [-Infinity] as the latest. *)
Theorem first_and_latest_trip Number (VISITS : list Visit) :
  let s := stats Number VISITS in
  let ys := years Number VISITS in
  (forall y, List.In y ys <->
             isNaN y = false /\ exists v, List.In v VISITS /\ Number (date v) = y)
  /\ (ys = nil -> first s = PosInf /\ last s = NegInf)
  /\ (ys <> nil ->
      List.In (first s) ys /\ List.In (last s) ys
      /\ num_le (first s) (last s) = true
      /\ forall y, List.In y ys ->
                   num_le (first s) y = true /\ num_le y (last s) = true).
Proof.
  cbv zeta. unfold stats. cbn [first last]. split; [| split].
  - intros y. unfold years. rewrite List.filter_In, List.in_map_iff.
    destruct (isNaN y); cbn; split.
    + intros [_ H]; discriminate.
    + intros [H _]; discriminate.
    + intros [(v & H1 & H2) _]. split; [reflexivity |]. exists v; tauto.
    + intros [_ (v & H1 & H2)]. split; [| reflexivity]. exists v; tauto.
  - intros ->. split; reflexivity.
  - intros Hne. pose proof (years_numbers Number VISITS) as Hn.
    destruct (Math_min_spec (years Number VISITS) PosInf eq_refl Hn)
      as (_ & S1 & _ & A1).
    destruct (Math_max_spec (years Number VISITS) NegInf eq_refl Hn)
      as (_ & S2 & _ & A2).
    cbv zeta in S1, A1, S2, A2. unfold Math_min, Math_max.
    destruct (years Number VISITS) as [|y0 ys] eqn:E; [congruence |].
    assert (I1 : List.In (List.fold_left min2 (y0 :: ys) PosInf) (y0 :: ys)).
    { destruct S1 as [S1 | S1]; [| assumption].
      left. rewrite S1. apply above_infinity.
      specialize (A1 y0 (or_introl eq_refl)). now rewrite S1 in A1. }
    assert (I2 : List.In (List.fold_left max2 (y0 :: ys) NegInf) (y0 :: ys)).
    { destruct S2 as [S2 | S2]; [| assumption].
      left. rewrite S2. apply below_infinity.
      specialize (A2 y0 (or_introl eq_refl)). now rewrite S2 in A2. }
    repeat split; auto.
Qed.

(** One date that does not read as a number among two visits. *)
Example skipped_date :
  let Number := fun s => if String.eqb s "2024" then Fin 2024
                         else if String.eqb s "2021" then Fin 2021 else NaN in
  let s := stats Number [mkVisit "Luxor" "Egypt" "2024" 0 0;
                         mkVisit "Baku" "Azerbaijan" "soon" 0 0;
                         mkVisit "Gramado" "Brazil" "2021" 0 0] in
  cities s = 3 /\ countries s = 3 /\ first s = Fin 2021 /\ last s = Fin 2024.
Proof. repeat split. Qed.

End ChromeFacts.
